(** * langchain-agent: capability registry and agent builder

    A shallow embedding of [agent/tool_loader.py], [agent/agent.py],
    [agent/utils.py] and the history-clear action of [app/app.py].

    The repository is glue around an agent framework.  Every call that
    leaves the repository (client constructors, prompt hub, provider
    calls, the plan-and-execute chain) is a field of the record
    [Framework]; the repository's own control flow (conditional
    registration, [try]/[except] handlers, the resolution loop, the
    output fallback of [PlanAndExecuteWrapper.invoke]) is translated
    statement by statement on top of it. *)

From stdpp Require Import gmap strings list fin_maps.
From Stdlib Require Import ZArith.

Set Warnings "-register-all".
Set Default Proof Using "Type".

(** ** Python values, exceptions and the effect monad *)

(** The values a framework dictionary ([Dict[str, Any]]) can hold. *)
Inductive PyVal :=
  | VNone
  | VBool (b : bool)
  | VInt (z : Z)
  | VStr (s : string)
  | VList (l : list PyVal)
  | VDict (d : gmap string PyVal).

Abbreviation PyDict := (gmap string PyVal).

(** Python truthiness, as tested by [not result["output"]]. *)
Definition truthy (v : PyVal) : bool :=
  match v with
  | VNone => false
  | VBool b => b
  | VInt z => negb (z =? 0)%Z
  | VStr s => negb (String.eqb s "")
  | VList l => match l with [] => false | _ => true end
  | VDict d => negb (bool_decide (d = ∅))
  end.

(** [os.environ.get(k)] used as a condition: set and not empty. *)
Definition env_truthy (environ : gmap string string) (k : string) : bool :=
  match environ !! k with
  | Some s => negb (String.eqb s "")
  | None => false
  end.

(** Exceptions: the classes the handlers of the source tell apart, with
    the text [str(e)] yields.  All are subclasses of [Exception]. *)
Inductive exn_class :=
  | ImportError | TypeError | ValueError | AttributeError | KeyError
  | RuntimeError.

Record exn := Exn { exn_cls : exn_class; exn_str : string }.

Definition is_ImportError (e : exn) : bool :=
  match exn_cls e with ImportError => true | _ => false end.

Inductive result (A : Type) :=
  | Ok (a : A)
  | Raise (e : exn).
Arguments Ok {A} a.
Arguments Raise {A} e.

Definition raises {A} (r : result A) : Prop :=
  match r with Raise _ => True | Ok _ => False end.

(** A message of the conversation memory. *)
Inductive Message :=
  | HumanMessage (content : string)
  | AIMessage (content : string).

(** [ConversationBufferMemory] as [init_memory] configures it. *)
Record ConversationBufferMemory := {
  memory_key : string;
  return_messages : bool;
  output_key : string;
  chat_memory : list Message
}.

(** References to memory objects: sessions hold the reference, not a copy. *)
Definition loc := nat.

(** The world the program runs in: what was printed, and the heap of
    memory objects that sessions share by reference. *)
Record World := {
  stdout : list string;
  heap : gmap loc ConversationBufferMemory
}.

Definition M (A : Type) : Type := World -> result A * World.

#[export] Instance M_ret : MRet M := fun A (a : A) w => (Ok a, w).

#[export] Instance M_bind : MBind M := fun A B (k : A -> M B) (m : M A) w =>
  match m w with
  | (Ok a, w') => k a w'
  | (Raise e, w') => (Raise e, w')
  end.

Definition lift {A} (r : result A) : M A := fun w => (r, w).

Definition print (line : string) : M unit :=
  fun w => (Ok tt, {| stdout := stdout w ++ [line]; heap := heap w |}).

(** [try: body except <classes accepted by catches> as e: handler e];
    an exception the clause does not name propagates. *)
Definition try_except {A} (body : M A) (catches : exn -> bool)
    (handler : exn -> M A) : M A :=
  fun w =>
    match body w with
    | (Ok a, w') => (Ok a, w')
    | (Raise e, w') => if catches e then handler e w' else (Raise e, w')
    end.

(** [except Exception] names every class of [exn_class]. *)
Definition any_Exception (e : exn) : bool := true.

(** [for x in xs: acc = body x acc], in the monad. *)
Fixpoint for_each {A S} (xs : list A) (body : A -> S -> M S) (acc : S) : M S :=
  match xs with
  | [] => mret acc
  | x :: xs' => acc' ← body x acc; for_each xs' body acc'
  end.

(** [sep.join(parts)]. *)
Definition join (sep : string) (parts : list string) : string :=
  String.concat sep parts.

Definition newline : string := String (Ascii.ascii_of_nat 10) EmptyString.

(** ** Framework handles *)

(** A tool as the reasoning loop sees it ([name], [description], and the
    callable [func] taking the input text). *)
Record Tool := {
  name : string;
  description : string;
  func : string -> result string
}.

(** What [tool.invoke(text)] runs. *)
Definition Tool_invoke (t : Tool) (input : string) : result string :=
  func t input.

(** Client handle: the arguments the client was built from. *)
Record LLM := {
  model : string;
  temperature : Z;
  streaming : bool
}.

Record Prompt := { hub_path : string }.

(** One reasoning step: what the model asks for next. *)
Inductive AgentStep :=
  | AgentFinish (answer : string)
  | AgentAction (tool tool_input : string)
  | ParseFailure (text : string).

(** An agent runnable: given the conversation, the steps so far (action,
    observation) and the input, asks the model for the next step. *)
Record Agent := {
  plan : list Message -> list (AgentStep * string) -> string -> result AgentStep
}.

(** The keyword arguments [AgentExecutor(...)] is given in the source;
    [None] where the source leaves the framework's default. *)
Record AgentExecutor := {
  agent : Agent;
  tools : list Tool;
  handle_parsing_errors : bool;
  max_iterations : option nat;
  early_stopping_method : option string;
  verbose : option bool;
  memory : option loc
}.

Inductive Planner := ChatPlanner (llm : LLM).
Inductive StepExecutor :=
  ChatAgentExecutor (llm : LLM) (tools : list Tool) (verbose : bool).

(** [PlanAndExecute(planner, executor, verbose)] with its [memory] attribute. *)
Record PlanAndExecute := {
  pe_planner : Planner;
  pe_executor : StepExecutor;
  pe_verbose : bool;
  pe_memory : option loc
}.

(** Weather observation, with the fields the weather tool formats,
    already rendered as text. *)
Record Weather := {
  temp : string;
  detailed_status : string;
  humidity : string;
  wind_speed : string
}.

(** Everything the repository calls but does not define. *)
Record Framework := {
  (* the process environment *)
  environ : gmap string string;
  (* langchain_openai *)
  ChatOpenAI : string -> Z -> bool -> result LLM;
  (* langchain.hub *)
  hub_pull : string -> result Prompt;
  (* the ddgs package: import, and the live text search *)
  import_ddgs : result unit;
  ddgs_text : string -> nat -> result (list (gmap string string));
  (* langchain_community DuckDuckGoSearchRun(api_wrapper=...) *)
  DuckDuckGoSearchRun : result Tool;
  (* langchain.agents *)
  create_self_ask_with_search_agent :
    option LLM -> list Tool -> Prompt -> result Agent;
  create_react_agent : LLM -> list Tool -> Prompt -> result Agent;
  (* AgentExecutor: what the framework takes for an argument the source
     leaves out, and what it makes of a stopped loop under a given
     early-stopping method: an output, or the exception it raises for a
     method it does not support *)
  default_max_iterations : nat;
  default_early_stopping_method : string;
  return_stopped_response :
    string -> list (AgentStep * string) -> result string;
  (* langchain_community tools *)
  ArxivQueryRun : result Tool;
  WikipediaQueryRun : result Tool;
  python_repl_run : string -> result string;
  (* LLMMathChain.from_llm(llm=llm).run *)
  LLMMathChain_from_llm : option LLM -> result (string -> result string);
  (* pyowm: import, then OWM(api_key).weather_manager() *)
  import_pyowm : result unit;
  OWM_weather_manager : string -> result (string -> result Weather);
  (* wolfram alpha: import, then WolframAlphaQueryRun(api_wrapper=...) *)
  import_wolfram_alpha : result unit;
  WolframAlphaQueryRun : result Tool;
  (* google search, new package and deprecated one *)
  GoogleSearchRun_community : result Tool;
  GoogleSearchRun_deprecated : result Tool;
  (* langchain_experimental.plan_and_execute *)
  load_chat_planner : LLM -> result Planner;
  load_agent_executor : LLM -> list Tool -> bool -> result StepExecutor;
  (* the chain's own run: from the turns in memory and the inputs, the
     result dictionary and the turns it records *)
  PlanAndExecute_call :
    PlanAndExecute -> list Message -> PyDict -> result (PyDict * list Message)
}.

(** ** agent/utils.py *)

Definition init_memory : ConversationBufferMemory :=
  {| memory_key := "chat_history";
     return_messages := true;
     output_key := "output";
     chat_memory := [] |}.

(** The module-level [MEMORY = init_memory()]: one object, at one address. *)
Definition MEMORY : loc := 0%nat.

Definition initial_world : World :=
  {| stdout := []; heap := {[ MEMORY := init_memory ]} |}.

(** ** The reasoning loop behind [AgentExecutor] *)

Section WithFramework.

Context (fw : Framework).

(** Modelled from the spec: the observation for a requested capability.
    The framework's executor is not part of the repository; section 4.2
    has it invoke the capability and append the observation. *)
Definition observe (ts : list Tool) (tool tool_input : string) : result string :=
  match List.find (fun t => String.eqb (name t) tool) ts with
  | Some t => Tool_invoke t tool_input
  | None => Ok (tool +:+ " is not a valid tool, try one of ["
                +:+ join ", " (name <$> ts) +:+ "].")
  end.

(** Modelled from the spec: the single-step reasoning loop of section 4.2
    (the framework's executor is not part of the repository).  Each
    iteration asks the model for the next step; a final answer ends the
    loop, a capability call is run and its observation appended, a parse
    failure is a format-correction retry under the same bound; when the
    bound is used up the loop ends with what the framework makes of the
    configured early-stopping method, which is the early-stopping output
    where the framework supports the method and its exception where it
    does not. *)
Fixpoint iterate (ae : AgentExecutor) (method : string) (history : list Message)
    (remaining : nat) (steps : list (AgentStep * string)) (input : string)
    : result (string * list (AgentStep * string)) :=
  match remaining with
  | O =>
      match return_stopped_response fw method steps with
      | Ok answer => Ok (answer, steps)
      | Raise e => Raise e
      end
  | S remaining' =>
      match plan (agent ae) history steps input with
      | Raise e => Raise e
      | Ok (AgentFinish answer) => Ok (answer, steps)
      | Ok (AgentAction tool tool_input) =>
          match observe (tools ae) tool tool_input with
          | Raise e => Raise e
          | Ok observation =>
              iterate ae method history remaining'
                (steps ++ [(AgentAction tool tool_input, observation)]) input
          end
      | Ok (ParseFailure text) =>
          if handle_parsing_errors ae then
            iterate ae method history remaining'
              (steps ++ [(ParseFailure text, "Invalid or incomplete response")])
              input
          else Raise (Exn ValueError text)
      end
  end.

(** Modelled from the spec: one run of the executor, under the iteration
    bound and early-stopping method it was configured with. *)
Definition AgentExecutor_call (ae : AgentExecutor) (history : list Message)
    (input : string) : result (string * list (AgentStep * string)) :=
  iterate ae
    (default (default_early_stopping_method fw) (early_stopping_method ae))
    history
    (default (default_max_iterations fw) (max_iterations ae))
    [] input.

(** Modelled from the spec: the executor used as a capability's callable
    ([func=self_ask_agent.invoke]).  Section 4.1 has the composite
    capability delegate to a nested agent invocation under the same
    executor contract: the question goes in as text, no memory is
    attached, and the observation is the answer text.  What the
    framework's own [invoke] does with a bare string is not part of the
    repository. *)
Definition AgentExecutor_as_func (ae : AgentExecutor) (input : string)
    : result string :=
  match AgentExecutor_call ae [] input with
  | Ok (answer, _) => Ok answer
  | Raise e => Raise e
  end.

(** ** agent/tool_loader.py *)

(** [CustomDuckDuckGoSearch.search]. *)
Definition CustomDuckDuckGoSearch_search (query : string) : result string :=
  match ddgs_text fw query 5 with
  | Ok results =>
      let formatted_results :=
        (fun r : gmap string string =>
           let title := default "No title" (r !! "title") in
           let body := default "No description" (r !! "body") in
           title +:+ ": " +:+ body) <$> results in
      Ok (join newline formatted_results)
  | Raise e => Ok ("Search failed: " +:+ exn_str e)
  end.

(** [OpenWeatherMapTool.get_current_weather], over the weather manager
    [self.mgr]. *)
Definition get_current_weather (mgr : string -> result Weather)
    (location : string) : result string :=
  match mgr location with
  | Ok weather =>
      Ok ("Current weather in " +:+ location +:+ ": " +:+ temp weather
          +:+ "Â°C, " +:+ detailed_status weather +:+ ", Humidity: "
          +:+ humidity weather +:+ "%, Wind Speed: " +:+ wind_speed weather
          +:+ " m/s")
  | Raise e =>
      Ok ("Could not retrieve weather data for " +:+ location +:+ ": "
          +:+ exn_str e)
  end.

(** [WolframAlphaTool._run]: the base class's [_run] under a handler. *)
Definition WolframAlphaTool (base : Tool) : Tool :=
  {| name := name base;
     description := description base;
     func := fun query =>
       match func base query with
       | Ok answer => Ok answer
       | Raise e =>
           Ok ("Wolfram Alpha query failed: " +:+ exn_str e
               +:+ ". Please try a different tool or rephrase your query.")
       end |}.

(** [Tool(name="ddg-search", ..., func=CustomDuckDuckGoSearch().search)]. *)
Definition ddg_search_tool : Tool :=
  {| name := "ddg-search";
     description := "Search the web using DuckDuckGo. Input should be a search query.";
     func := CustomDuckDuckGoSearch_search |}.

(** The first block of [load_tools]: the DuckDuckGo tool, or [None]. *)
Definition ddg_tool : M (option Tool) :=
  try_except
    (lift (import_ddgs fw);;
     mret (Some ddg_search_tool))
    is_ImportError
    (fun _ =>
       print "Warning: ddgs package not installed. Please install it with `pip install ddgs`";;
       try_except
         (t ← lift (DuckDuckGoSearchRun fw); mret (Some t))
         any_Exception
         (fun e =>
            print ("Warning: Could not initialize DuckDuckGo search tool: "
                   +:+ exn_str e);;
            mret None)).

(** The search tool handed to the self-ask agent. *)
Definition search_tool (ddg_tool : option Tool) : Tool :=
  match ddg_tool with
  | Some search_wrapper =>
      {| name := "Intermediate Answer";
         func := Tool_invoke search_wrapper;
         description := "Search" |}
  | None =>
      {| name := "Intermediate Answer";
         func := fun x => Ok "Search tool not available";
         description := "Search" |}
  end.

(** [self_ask_agent = AgentExecutor(agent=..., tools=[search_tool],
    handle_parsing_errors=True)]. *)
Definition self_ask_agent (llm : option LLM) (ddg_tool : option Tool)
    : M AgentExecutor :=
  prompt ← lift (hub_pull fw "hwchase17/self-ask-with-search");
  a ← lift (create_self_ask_with_search_agent fw llm
              [search_tool ddg_tool] prompt);
  mret {| agent := a;
          tools := [search_tool ddg_tool];
          handle_parsing_errors := true;
          max_iterations := None;
          early_stopping_method := None;
          verbose := None;
          memory := None |}.

(** The entries of the dictionary literal the repository builds itself. *)
Definition python_repl_tool : Tool :=
  {| name := "python_repl";
     description := "A Python shell. Use this to execute python commands. Input should be a valid python command. If you want to see the output of a value, you should print it out with `print(...)`. ";
     func := python_repl_run fw |}.

Definition calculator_tool (run : string -> result string) : Tool :=
  {| name := "Calculator";
     description := "Useful for when you need to answer questions about math.";
     func := run |}.

Definition self_ask_tool (self_ask_agent : AgentExecutor) : Tool :=
  {| func := AgentExecutor_as_func self_ask_agent;
     name := "Self-ask agent";
     description := "A tool to answer complicated questions. Useful for when you need to answer questions about current events. Input should be a question." |}.

Definition openweathermap_tool (mgr : string -> result Weather) : Tool :=
  {| name := "OpenWeatherMap";
     description := "Get current weather information for a specific location. Use this when asked about current weather conditions. Input should be a location name or a city name like 'Beijing' or 'New York'.";
     func := get_current_weather mgr |}.

(** The dictionary literal [available_tools = {...}], its values built
    in source order. *)
Definition base_tools (llm : option LLM) (self_ask_agent : AgentExecutor)
    : M (gmap string Tool) :=
  arxiv ← lift (ArxivQueryRun fw);
  wikipedia ← lift (WikipediaQueryRun fw);
  math_run ← lift (LLMMathChain_from_llm fw llm);
  math_arun ← lift (LLMMathChain_from_llm fw llm);
  mret (<[ "critical_search" := self_ask_tool self_ask_agent ]>
       (<[ "llm-math" := calculator_tool math_run ]>
       (<[ "python_repl" := python_repl_tool ]>
       (<[ "wikipedia" := wikipedia ]>
       (<[ "arxiv" := arxiv ]> ∅))))).

(** [if ddg_tool: available_tools["ddg-search"] = ddg_tool]. *)
Definition add_ddg_search (ddg_tool : option Tool)
    (available_tools : gmap string Tool) : gmap string Tool :=
  match ddg_tool with
  | Some t => <[ "ddg-search" := t ]> available_tools
  | None => available_tools
  end.

(** The block "Try to add OpenWeatherMap tool if credentials are available". *)
Definition add_openweathermap (available_tools : gmap string Tool)
    : M (gmap string Tool) :=
  if env_truthy (environ fw) "OWM_API_KEY" then
    try_except
      (lift (import_pyowm fw);;
       mgr ← lift (OWM_weather_manager fw
                     (default "" (environ fw !! "OWM_API_KEY")));
       mret (<[ "openweathermap" := openweathermap_tool mgr ]> available_tools))
      any_Exception
      (fun e =>
         (if is_ImportError e then
            print "Warning: pyowm package not installed. Please install it with `pip install pyowm`"
          else
            print ("Warning: Could not initialize OpenWeatherMap tool: "
                   +:+ exn_str e));;
         mret available_tools)
  else
    print "Info: OWM_API_KEY not found. OpenWeatherMap tool will not be available.";;
    mret available_tools.

(** The block "Try to add Wolfram Alpha tool if credentials and
    dependencies are available". *)
Definition add_wolfram_alpha (available_tools : gmap string Tool)
    : M (gmap string Tool) :=
  if env_truthy (environ fw) "WOLFRAM_ALPHA_APPID" then
    try_except
      (lift (import_wolfram_alpha fw);;
       base ← lift (WolframAlphaQueryRun fw);
       mret (<[ "wolfram-alpha" := WolframAlphaTool base ]> available_tools))
      any_Exception
      (fun e =>
         (if is_ImportError e then
            print "Warning: wolframalpha package not installed. Please install it with `pip install wolframalpha`"
          else
            print ("Warning: Could not initialize Wolfram Alpha tool: "
                   +:+ exn_str e));;
         mret available_tools)
  else
    print "Info: WOLFRAM_ALPHA_APPID not found. Wolfram Alpha tool will not be available.";;
    mret available_tools.

(** The block "Try to add Google Search tool if credentials are available". *)
Definition add_google_search (available_tools : gmap string Tool)
    : M (gmap string Tool) :=
  if env_truthy (environ fw) "GOOGLE_API_KEY"
     && env_truthy (environ fw) "GOOGLE_CSE_ID" then
    try_except
      (t ← lift (GoogleSearchRun_community fw);
       mret (<[ "google-search" := t ]> available_tools))
      any_Exception
      (fun e =>
         if is_ImportError e then
           print "Warning: langchain-google-community package not installed. Please install it with `pip install -U langchain-google-community`";;
           try_except
             (t ← lift (GoogleSearchRun_deprecated fw);
              mret (<[ "google-search" := t ]> available_tools))
             any_Exception
             (fun e =>
                print ("Warning: Could not initialize Google Search tool: "
                       +:+ exn_str e);;
                mret available_tools)
         else
           print ("Warning: Could not initialize Google Search tool: "
                  +:+ exn_str e);;
           mret available_tools)
  else
    print "Info: GOOGLE_API_KEY and/or GOOGLE_CSE_ID not found. Google Search tool will not be available.";;
    mret available_tools.

(** [load_tools] up to the resolution loop: the dictionary
    [available_tools] with every registration applied, in source order. *)
Definition available_tools (llm : option LLM) : M (gmap string Tool) :=
  ddg_tool ← ddg_tool;
  self_ask_agent ← self_ask_agent llm ddg_tool;
  available_tools ← base_tools llm self_ask_agent;
  let available_tools := add_ddg_search ddg_tool available_tools in
  available_tools ← add_openweathermap available_tools;
  available_tools ← add_wolfram_alpha available_tools;
  add_google_search available_tools.

(** The body of the loop [for name in tool_names]. *)
Definition resolve_name (available_tools : gmap string Tool) (name : string)
    (tools : list Tool) : M (list Tool) :=
  match available_tools !! name with
  | Some t => mret (tools ++ [t])
  | None =>
      print ("Warning: Tool '" +:+ name +:+ "' not found in available tools.");;
      mret tools
  end.

Definition load_tools (tool_names : list string) (llm : option LLM)
    : M (list Tool) :=
  available_tools ← available_tools llm;
  for_each tool_names (resolve_name available_tools) [].

(** ** Invocation and the shared memory *)

(** Modelled from the spec: how a chain uses the memory bound to it
    (the chain classes are the framework's).  The conversation is read
    through the reference when the call starts, and the turns of a
    successful call are appended to the same object. *)
Definition with_memory {A} (mem : option loc)
    (call : list Message -> result (A * list Message)) : M A :=
  fun w =>
    match mem with
    | None =>
        (match call [] with Ok (a, _) => Ok a | Raise e => Raise e end, w)
    | Some l =>
        match heap w !! l with
        | None => (Raise (Exn RuntimeError "memory object does not exist"), w)
        | Some m =>
            match call (chat_memory m) with
            | Raise e => (Raise e, w)
            | Ok (a, turns) =>
                (Ok a,
                 {| stdout := stdout w;
                    heap := <[ l := {| memory_key := memory_key m;
                                       return_messages := return_messages m;
                                       output_key := output_key m;
                                       chat_memory := chat_memory m ++ turns |} ]>
                            (heap w) |})
            end
        end
    end.

(** Modelled from the spec: one step of the trace the invocation
    returns, as a value of the result dictionary. *)
Definition step_to_py (step : AgentStep * string) : PyVal :=
  match step with
  | (AgentFinish answer, observation) =>
      VList [VStr "finish"; VStr answer; VStr observation]
  | (AgentAction tool tool_input, observation) =>
      VList [VStr tool; VStr tool_input; VStr observation]
  | (ParseFailure text, observation) =>
      VList [VStr "_Exception"; VStr text; VStr observation]
  end.

(** Modelled from the spec: [invoke({input}) -> {output, intermediate_steps}]
    for the single-step executor, recording the turn in its memory. *)
Definition AgentExecutor_invoke (ae : AgentExecutor) (inputs : PyDict)
    : M PyDict :=
  match inputs !! "input" with
  | Some (VStr input) =>
      with_memory (memory ae) (fun history =>
        match AgentExecutor_call ae history input with
        | Ok (answer, steps) =>
            Ok (<[ "intermediate_steps" := VList (step_to_py <$> steps) ]>
                  (<[ "output" := VStr answer ]> inputs),
                [HumanMessage input; AIMessage answer])
        | Raise e => Raise e
        end)
  | _ => lift (Raise (Exn ValueError "Missing some input keys: {'input'}"))
  end.

(** [self.plan_and_execute.invoke(inputs, config)]. *)
Definition PlanAndExecute_invoke (pe : PlanAndExecute) (inputs : PyDict)
    : M PyDict :=
  with_memory (pe_memory pe) (fun history => PlanAndExecute_call fw pe history inputs).

(** ** agent/agent.py *)

Definition create_llm (model_name : string) : result LLM :=
  if String.prefix "gpt-" model_name then
    ChatOpenAI fw model_name 0 true
  else if String.prefix "Qwen/" model_name then
    ChatOpenAI fw model_name 0 true
  else
    ChatOpenAI fw "gpt-3.5-turbo" 0 true.

(** The fallback text of [PlanAndExecuteWrapper.invoke]. *)
Definition no_answer : string := "未能生成答案，请尝试其他问题或工具。".

(** [reversed(v)]: sequences only.  The characters of a string and the
    keys of a dictionary are strings (a [gmap] does not keep Python's
    insertion order; the keys are never dictionaries whatever the order). *)
Definition reversed (v : PyVal) : result (list PyVal) :=
  match v with
  | VList l => Ok (reverse l)
  | VStr s =>
      Ok (reverse ((fun c => VStr (String c EmptyString)) <$> String.list_ascii_of_string s))
  | VDict d => Ok (reverse (VStr <$> (map_to_list d).*1))
  | VNone | VBool _ | VInt _ =>
      Raise (Exn TypeError "argument to reversed() must be a sequence")
  end.

(** The loop [for step in reversed(...)] with its [break]. *)
Fixpoint scan_steps (steps : list PyVal) (result : PyDict) : PyDict :=
  match steps with
  | [] => result
  | step :: steps' =>
      match step with
      | VDict d =>
          match d !! "response" with
          | Some response => <[ "output" := response ]> result
          | None => scan_steps steps' result
          end
      | _ => scan_steps steps' result
      end
  end.

(** [PlanAndExecuteWrapper.invoke]. *)
Definition PlanAndExecuteWrapper_invoke (plan_and_execute : PlanAndExecute)
    (input : PyDict) : M PyDict :=
  let original_question := default (VStr "") (input !! "input") in
  result ← PlanAndExecute_invoke plan_and_execute
             {[ "input" := original_question ]};
  result ←
    (if match result !! "output" with
        | None => true
        | Some output => negb (truthy output)
        end
     then
       match result !! "intermediate_steps" with
       | Some intermediate_steps =>
           steps ← lift (reversed intermediate_steps);
           mret (scan_steps steps result)
       | None => mret result
       end
     else mret result);
  mret (<[ "intermediate_steps" :=
             default (VList []) (result !! "intermediate_steps") ]>
        (<[ "output" := default (VStr no_answer) (result !! "output") ]> ∅)).

(** What [load_agent] returns. *)
Inductive Runnable :=
  | PlanAndExecuteWrapper (planner : Planner) (executor : StepExecutor)
      (plan_and_execute : PlanAndExecute)
  | ReActAgentExecutor (executor : AgentExecutor).

(** [PlanAndExecuteWrapper.__init__]: the chain is built from the planner
    and the executor, and the shared memory is attached to it. *)
Definition PlanAndExecuteWrapper_init (planner : Planner)
    (executor : StepExecutor) : Runnable :=
  PlanAndExecuteWrapper planner executor
    {| pe_planner := planner;
       pe_executor := executor;
       pe_verbose := true;
       pe_memory := Some MEMORY |}.

(** [load_agent]; [strategy] is whatever string the caller passes, the
    [Literal] annotation is not enforced when the program runs. *)
Definition load_agent (tool_names : list string) (strategy : string)
    (model_name : string) : M Runnable :=
  llm ← lift (create_llm model_name);
  tools ← load_tools tool_names (Some llm);
  if String.eqb strategy "plan-and-solve" then
    planner ← lift (load_chat_planner fw llm);
    executor ← lift (load_agent_executor fw llm tools true);
    mret (PlanAndExecuteWrapper_init planner executor)
  else
    prompt ← lift (hub_pull fw "hwchase17/react");
    a ← lift (create_react_agent fw llm tools prompt);
    mret (ReActAgentExecutor
            {| agent := a;
               tools := tools;
               handle_parsing_errors := true;
               max_iterations := Some 15%nat;
               early_stopping_method := Some "generate";
               verbose := Some true;
               memory := Some MEMORY |}).

(** [agent_chain.invoke(input)] on either kind of session. *)
Definition invoke (session : Runnable) (input : PyDict) : M PyDict :=
  match session with
  | PlanAndExecuteWrapper _ _ plan_and_execute =>
      PlanAndExecuteWrapper_invoke plan_and_execute input
  | ReActAgentExecutor executor => AgentExecutor_invoke executor input
  end.

End WithFramework.

(** ** app/app.py: the history-clear action *)

(** Modelled from the spec: [MEMORY.chat_memory.clear()] removes all
    prior turns of the shared memory object (the memory class is the
    framework's). *)
Definition clear_message_history : M unit :=
  fun w =>
    (Ok tt,
     {| stdout := stdout w;
        heap := alter (fun m => {| memory_key := memory_key m;
                                   return_messages := return_messages m;
                                   output_key := output_key m;
                                   chat_memory := [] |}) MEMORY (heap w) |}).

(** ** Specification vocabulary *)

(** The warnings the resolution loop prints for [tool_names]. *)
Definition not_found_warnings (available_tools : gmap string Tool)
    (tool_names : list string) : list string :=
  (fun name => "Warning: Tool '" +:+ name +:+ "' not found in available tools.")
    <$> filter (fun name => available_tools !! name = None) tool_names.

(** What can stand under each key of the registry [load_tools] builds. *)
Inductive registered (fw : Framework) (llm : option LLM)
    : string → Tool → Prop :=
  | registered_arxiv t :
      ArxivQueryRun fw = Ok t → registered fw llm "arxiv" t
  | registered_wikipedia t :
      WikipediaQueryRun fw = Ok t → registered fw llm "wikipedia" t
  | registered_python_repl :
      registered fw llm "python_repl" (python_repl_tool fw)
  | registered_llm_math run :
      LLMMathChain_from_llm fw llm = Ok run →
      registered fw llm "llm-math" (calculator_tool run)
  | registered_critical_search ae :
      registered fw llm "critical_search" (self_ask_tool fw ae)
  | registered_ddg_search :
      import_ddgs fw = Ok tt →
      registered fw llm "ddg-search" (ddg_search_tool fw)
  | registered_ddg_fallback e t :
      import_ddgs fw = Raise e → is_ImportError e = true →
      DuckDuckGoSearchRun fw = Ok t →
      registered fw llm "ddg-search" t
  | registered_openweathermap mgr :
      registered fw llm "openweathermap" (openweathermap_tool mgr)
  | registered_wolfram_alpha base :
      WolframAlphaQueryRun fw = Ok base →
      registered fw llm "wolfram-alpha" (WolframAlphaTool base)
  | registered_google_search t :
      GoogleSearchRun_community fw = Ok t ∨
      GoogleSearchRun_deprecated fw = Ok t →
      registered fw llm "google-search" t.

Definition registry_ok (fw : Framework) (llm : option LLM)
    (reg : gmap string Tool) : Prop :=
  ∀ k t, reg !! k = Some t → registered fw llm k t.

(** The failures of registry construction no handler covers. *)
Inductive registry_failure (fw : Framework) (llm : option LLM) (e : exn)
    : Prop :=
  | failure_import_ddgs :
      import_ddgs fw = Raise e → is_ImportError e = false →
      registry_failure fw llm e
  | failure_hub_pull :
      hub_pull fw "hwchase17/self-ask-with-search" = Raise e →
      registry_failure fw llm e
  | failure_self_ask ts prompt :
      create_self_ask_with_search_agent fw llm ts prompt = Raise e →
      registry_failure fw llm e
  | failure_arxiv :
      ArxivQueryRun fw = Raise e → registry_failure fw llm e
  | failure_wikipedia :
      WikipediaQueryRun fw = Raise e → registry_failure fw llm e
  | failure_llm_math :
      LLMMathChain_from_llm fw llm = Raise e → registry_failure fw llm e.

(** [wp m w Φ]: running [m] from [w] ends in an outcome and a world that
    satisfy [Φ]. *)
Definition wp {A} (m : M A) (w : World) (Φ : result A → World → Prop) : Prop :=
  Φ (m w).1 (m w).2.


(** The optional registrations never raise and keep the registry sound. *)
Definition optional_post (fw : Framework) (llm : option LLM)
    (reg : gmap string Tool) (r : result (gmap string Tool)) (w : World)
    : Prop :=
  match r with
  | Ok reg' => registry_ok fw llm reg → registry_ok fw llm reg'
  | Raise _ => False
  end.

(** A step result that carries no ["response"] entry. *)
Definition no_response (step : PyVal) : Prop :=
  match step with
  | VDict d => d !! "response" = None
  | _ => True
  end.


(** ** Test doubles for the framework *)

Definition echo_agent : Agent :=
  {| plan := fun _ _ input => Ok (AgentFinish input) |}.

Definition stub_tool (n : string) : Tool :=
  {| name := n; description := n; func := fun q => Ok q |}.

Definition not_installed {A} (package : string) : result A :=
  Raise (Exn ImportError ("No module named '" +:+ package +:+ "'")).

(** A framework double: [env] is the process environment, [packages]
    tells whether the optional packages are installed, [math_run] is the
    calculator chain's run, [react] the agent the ReAct constructor
    returns, [pe_call] the run of the plan-and-execute chain.  The
    constructors that need a model reject a missing one, and a stopped
    loop has an output under the method ["force"] only, as for the
    framework's runnable agents. *)
Definition stub_framework (env : gmap string string) (packages : bool)
    (math_run : string → result string) (react : Agent)
    (pe_call : PlanAndExecute → list Message → PyDict →
               result (PyDict * list Message)) : Framework :=
  {| environ := env;
     ChatOpenAI := fun m t s =>
       Ok {| model := m; temperature := t; streaming := s |};
     hub_pull := fun path => Ok {| hub_path := path |};
     import_ddgs := if packages then Ok tt else not_installed "ddgs";
     ddgs_text := fun q n => Raise (Exn RuntimeError "No results found.");
     DuckDuckGoSearchRun :=
       if packages then Ok (stub_tool "duckduckgo_search")
       else not_installed "duckduckgo_search";
     create_self_ask_with_search_agent := fun llm _ _ =>
       match llm with
       | Some _ => Ok echo_agent
       | None =>
           Raise (Exn AttributeError
                    "'NoneType' object has no attribute 'bind'")
       end;
     create_react_agent := fun _ _ _ => Ok react;
     default_max_iterations := 15;
     default_early_stopping_method := "force";
     return_stopped_response := fun method _ =>
       if String.eqb method "force"
       then Ok "Agent stopped due to iteration limit or time limit."
       else Raise (Exn ValueError
                     ("Got unsupported early_stopping_method `" +:+ method
                      +:+ "`"));
     ArxivQueryRun := Ok (stub_tool "arxiv");
     WikipediaQueryRun := Ok (stub_tool "wikipedia");
     python_repl_run := fun q => Ok q;
     LLMMathChain_from_llm := fun llm =>
       match llm with
       | Some _ => Ok math_run
       | None => Raise (Exn ValueError "llm: none is not an allowed value")
       end;
     import_pyowm := if packages then Ok tt else not_installed "pyowm";
     OWM_weather_manager := fun _ =>
       Ok (fun _ => Raise (Exn RuntimeError "Unable to find the resource"));
     import_wolfram_alpha :=
       if packages then Ok tt else not_installed "wolframalpha";
     WolframAlphaQueryRun := Ok (stub_tool "wolfram_alpha");
     GoogleSearchRun_community :=
       if packages then Ok (stub_tool "google_search")
       else not_installed "langchain_google_community";
     GoogleSearchRun_deprecated :=
       if packages then Ok (stub_tool "google_search")
       else not_installed "googleapiclient";
     load_chat_planner := fun llm => Ok (ChatPlanner llm);
     load_agent_executor := fun llm ts v => Ok (ChatAgentExecutor llm ts v);
     PlanAndExecute_call := pe_call |}.

Definition gpt4 : LLM :=
  {| model := "gpt-4"; temperature := 0; streaming := true |}.

(** Everything installed, no credentials, the chain answers ["done"]. *)
Definition healthy : Framework :=
  stub_framework ∅ true (fun q => Ok q) echo_agent
    (fun _ _ _ => Ok ({[ "output" := VStr "done" ]}, [])).


(** The calculator chain fails on what the model wrote. *)
Definition math_fails : Framework :=
  stub_framework ∅ true
    (fun q => Raise (Exn ValueError ("unknown format from LLM: " +:+ q)))
    echo_agent
    (fun _ _ _ => Ok ({[ "output" := VStr "done" ]}, [])).

(** The self-ask executor [load_tools] builds over [healthy]. *)
Definition healthy_self_ask : AgentExecutor :=
  {| agent := echo_agent;
     tools := [search_tool (Some (ddg_search_tool healthy))];
     handle_parsing_errors := true;
     max_iterations := None;
     early_stopping_method := None;
     verbose := None;
     memory := None |}.

Definition healthy_registry : gmap string Tool :=
  <[ "ddg-search" := ddg_search_tool healthy ]>
  (<[ "critical_search" := self_ask_tool healthy healthy_self_ask ]>
  (<[ "llm-math" := calculator_tool (fun q => Ok q) ]>
  (<[ "python_repl" := python_repl_tool healthy ]>
  (<[ "wikipedia" := stub_tool "wikipedia" ]>
  (<[ "arxiv" := stub_tool "arxiv" ]> ∅))))).

Definition info_lines : list string :=
  ["Info: OWM_API_KEY not found. OpenWeatherMap tool will not be available.";
   "Info: WOLFRAM_ALPHA_APPID not found. Wolfram Alpha tool will not be available.";
   "Info: GOOGLE_API_KEY and/or GOOGLE_CSE_ID not found. Google Search tool will not be available."].

Definition healthy_world : World :=
  {| stdout := info_lines; heap := {[ MEMORY := init_memory ]} |}.

(** The memory a session refers to. *)
Definition session_memory (session : Runnable) : option loc :=
  match session with
  | PlanAndExecuteWrapper _ _ plan_and_execute => pe_memory plan_and_execute
  | ReActAgentExecutor executor => memory executor
  end.

(** What [PlanAndExecuteWrapper.invoke] makes of the chain's result
    [raw]: the statements after the call, which touch no state. *)
Definition wrapper_output (raw : PyDict) : result PyDict :=
  match
    (if match raw !! "output" with
        | None => true
        | Some output => negb (truthy output)
        end
     then
       match raw !! "intermediate_steps" with
       | Some intermediate_steps =>
           match reversed intermediate_steps with
           | Ok steps => Ok (scan_steps steps raw)
           | Raise e => Raise e
           end
       | None => Ok raw
       end
     else Ok raw)
  with
  | Ok result =>
      Ok (<[ "intermediate_steps" :=
               default (VList []) (result !! "intermediate_steps") ]>
          (<[ "output" := default (VStr no_answer) (result !! "output") ]> ∅))
  | Raise e => Raise e
  end.

(** The chain returns the given result and records nothing. *)
Definition chain_returning (raw : PyDict) : Framework :=
  stub_framework ∅ true (fun q => Ok q) echo_agent (fun _ _ _ => Ok (raw, [])).

(** The session [load_agent] builds for "plan-and-solve" over the
    doubles, with no tool requested. *)
Definition plan_session : Runnable :=
  PlanAndExecuteWrapper (ChatPlanner gpt4) (ChatAgentExecutor gpt4 [] true)
    {| pe_planner := ChatPlanner gpt4;
       pe_executor := ChatAgentExecutor gpt4 [] true;
       pe_verbose := true;
       pe_memory := Some MEMORY |}.

(** The session [load_agent] builds for any other strategy. *)
Definition react_session : Runnable :=
  ReActAgentExecutor
    {| agent := echo_agent;
       tools := [];
       handle_parsing_errors := true;
       max_iterations := Some 15%nat;
       early_stopping_method := Some "generate";
       verbose := Some true;
       memory := Some MEMORY |}.

Definition response_step (text : string) : PyVal :=
  VDict {[ "response" := VStr text ]}.

(** The same framework with no usable model client. *)
Definition without_client (fw : Framework) : Framework :=
  {| environ := environ fw;
     ChatOpenAI := fun _ _ _ =>
       Raise (Exn ValueError "Did not find openai_api_key");
     hub_pull := hub_pull fw;
     import_ddgs := import_ddgs fw;
     ddgs_text := ddgs_text fw;
     DuckDuckGoSearchRun := DuckDuckGoSearchRun fw;
     create_self_ask_with_search_agent := create_self_ask_with_search_agent fw;
     create_react_agent := create_react_agent fw;
     default_max_iterations := default_max_iterations fw;
     default_early_stopping_method := default_early_stopping_method fw;
     return_stopped_response := return_stopped_response fw;
     ArxivQueryRun := ArxivQueryRun fw;
     WikipediaQueryRun := WikipediaQueryRun fw;
     python_repl_run := python_repl_run fw;
     LLMMathChain_from_llm := LLMMathChain_from_llm fw;
     import_pyowm := import_pyowm fw;
     OWM_weather_manager := OWM_weather_manager fw;
     import_wolfram_alpha := import_wolfram_alpha fw;
     WolframAlphaQueryRun := WolframAlphaQueryRun fw;
     GoogleSearchRun_community := GoogleSearchRun_community fw;
     GoogleSearchRun_deprecated := GoogleSearchRun_deprecated fw;
     load_chat_planner := load_chat_planner fw;
     load_agent_executor := load_agent_executor fw;
     PlanAndExecute_call := PlanAndExecute_call fw |}.

(** A model that never gives a final answer. *)
Definition restless_agent : Agent :=
  {| plan := fun _ _ input => Ok (AgentAction "wikipedia" input) |}.

Definition restless : Framework :=
  stub_framework ∅ true (fun q => Ok q) restless_agent
    (fun _ _ _ => Ok ({[ "output" := VStr "done" ]}, [])).

Definition restless_executor : AgentExecutor :=
  {| agent := restless_agent;
     tools := [stub_tool "wikipedia"];
     handle_parsing_errors := true;
     max_iterations := Some 15%nat;
     early_stopping_method := Some "generate";
     verbose := Some true;
     memory := Some MEMORY |}.

(** The same executor under the early-stopping method "force". *)
Definition restless_executor_force : AgentExecutor :=
  {| agent := restless_agent;
     tools := [stub_tool "wikipedia"];
     handle_parsing_errors := true;
     max_iterations := Some 15%nat;
     early_stopping_method := Some "force";
     verbose := Some true;
     memory := Some MEMORY |}.


(** The world after one turn with [react_session]. *)
Definition talked_world : World :=
  (invoke healthy react_session {[ "input" := VStr "hi" ]} healthy_world).2.

(** ** agent/config.py *)

(** [set_environment], on the process environment: ten assignments, in
    source order. *)
Definition set_environment (environ : gmap string string)
    : gmap string string :=
  <[ "OWM_API_KEY" := "" ]>
  (<[ "LANGSMITH_ENDPOINT" := "" ]>
  (<[ "LANGSMITH_API_KEY" := "" ]>
  (<[ "LANGCHAIN_PROJECT" := "My Project" ]>
  (<[ "LANGCHAIN_TRACING_V2" := "true" ]>
  (<[ "WOLFRAM_ALPHA_APPID" := "" ]>
  (<[ "GOOGLE_API_KEY" := "" ]>
  (<[ "REPLICATE_API_TOKEN" := "" ]>
  (<[ "OPENAI_BASE_URL" := "" ]>
  (<[ "OPENAI_API_KEY" := "" ]> environ))))))))).

(** The framework seen from a process whose environment is [env]. *)
Definition with_environ (fw : Framework) (env : gmap string string)
    : Framework :=
  {| environ := env;
     ChatOpenAI := ChatOpenAI fw;
     hub_pull := hub_pull fw;
     import_ddgs := import_ddgs fw;
     ddgs_text := ddgs_text fw;
     DuckDuckGoSearchRun := DuckDuckGoSearchRun fw;
     create_self_ask_with_search_agent := create_self_ask_with_search_agent fw;
     create_react_agent := create_react_agent fw;
     default_max_iterations := default_max_iterations fw;
     default_early_stopping_method := default_early_stopping_method fw;
     return_stopped_response := return_stopped_response fw;
     ArxivQueryRun := ArxivQueryRun fw;
     WikipediaQueryRun := WikipediaQueryRun fw;
     python_repl_run := python_repl_run fw;
     LLMMathChain_from_llm := LLMMathChain_from_llm fw;
     import_pyowm := import_pyowm fw;
     OWM_weather_manager := OWM_weather_manager fw;
     import_wolfram_alpha := import_wolfram_alpha fw;
     WolframAlphaQueryRun := WolframAlphaQueryRun fw;
     GoogleSearchRun_community := GoogleSearchRun_community fw;
     GoogleSearchRun_deprecated := GoogleSearchRun_deprecated fw;
     load_chat_planner := load_chat_planner fw;
     load_agent_executor := load_agent_executor fw;
     PlanAndExecute_call := PlanAndExecute_call fw |}.

(** ** app/app.py: one run of the script *)

(** What a run of the script puts on the page. *)
Inductive UIEvent :=
  | Header (text : string)
  | ChatWrite (avatar : string) (content : PyVal)
  | ChatError (avatar : string) (text : string).

(** [msg.type] and [msg.content]. *)
Definition msg_type (msg : Message) : string :=
  match msg with
  | HumanMessage _ => "human"
  | AIMessage _ => "ai"
  end.

Definition msg_content (msg : Message) : string :=
  match msg with
  | HumanMessage content => content
  | AIMessage content => content
  end.

Definition avatars : gmap string string :=
  <[ "ai" := "assistant" ]> (<[ "human" := "user" ]> ∅).

(** [MEMORY.chat_memory.messages]. *)
Definition MEMORY_messages : M (list Message) :=
  fun w =>
    match heap w !! MEMORY with
    | Some m => (Ok (chat_memory m), w)
    | None => (Raise (Exn RuntimeError "memory object does not exist"), w)
    end.

(** The body of [for msg in MEMORY.chat_memory.messages]:
    [st.chat_message(avatars[msg.type]).write(msg.content)]. *)
Definition replay_message (msg : Message) (ui : list UIEvent)
    : M (list UIEvent) :=
  match avatars !! msg_type msg with
  | Some avatar => mret (ui ++ [ChatWrite avatar (VStr (msg_content msg))])
  | None => lift (Raise (Exn KeyError (msg_type msg)))
  end.

Section script.

(** Python's [str], used by the script's f-strings; not modelled. *)
Context (py_str : PyVal → string).

(** "Process the response from the agent". *)
Definition process_response (response : PyVal) : PyVal :=
  match response with
  | VDict d =>
      match d !! "action" with
      | Some _ => default (VStr no_answer) (d !! "action_input")
      | None =>
          default (default (VStr no_answer) (d !! "answer")) (d !! "output")
      end
  | _ => VStr (py_str response)
  end.

(** The block under [if prompt := st.chat_input(...)]: the user's
    message, then the invocation under its handler.  The callback
    handler and the timeout passed as [config] belong to the framework
    and are left out. *)
Definition answer_prompt (fw : Framework) (agent_chain : Runnable)
    (prompt : string) (ui : list UIEvent) (chat_history : list PyDict)
    : M (list UIEvent * list PyDict) :=
  let ui := ui ++ [ChatWrite "user" (VStr prompt)] in
  try_except
    (response ← invoke fw agent_chain {[ "input" := VStr prompt ]};
     print ("Raw response: " +:+ py_str (VDict response));;
     let output := process_response (VDict response) in
     print ("Processed output: " +:+ py_str output);;
     mret (ui ++ [ChatWrite "assistant" output],
           chat_history ++
             [<[ "content" := output ]> (<[ "role" := VStr "Assistant" ]> ∅)]))
    any_Exception
    (fun e =>
       mret (ui ++ [ChatError "assistant" ("An error occurred: " +:+ exn_str e);
                    ChatWrite "assistant"
                      (VStr "Please try rephrasing your question, select different tools, or try a different model.")],
             chat_history)).

(** One run of the script, top to bottom.  [chat_history] is
    [st.session_state.chat_history] ([None] before the first run),
    [strategy], [model_name] and [tool_names] are what the widgets
    return, [clear] tells whether the sidebar button was pressed, and
    [prompt] is what [st.chat_input] returns.  The result is the page
    and the session state after the run. *)
Definition app_script (fw : Framework) (chat_history : option (list PyDict))
    (strategy model_name : string) (tool_names : list string)
    (clear : bool) (prompt : option string)
    : M (list UIEvent * list PyDict) :=
  let fw := with_environ fw (set_environment (environ fw)) in
  let chat_history := default [] chat_history in
  let ui := [Header "Ask a research question!"] in
  (if clear then clear_message_history else mret tt);;
  messages ← MEMORY_messages;
  ui ← for_each messages replay_message ui;
  agent_chain ← load_agent fw tool_names strategy model_name;
  match prompt with
  | Some prompt =>
      if negb (String.eqb prompt "") then
        answer_prompt fw agent_chain prompt ui chat_history
      else mret (ui, chat_history)
  | None => mret (ui, chat_history)
  end.

End script.

(** ** Vocabulary for the remaining properties *)

(** [m] only prints: its outcome and the lines it prints are the same
    in every world, and it leaves the heap alone. *)
Definition console_only {A} (m : M A) : Prop :=
  ∃ r lines, ∀ w,
    m w = (r, {| stdout := stdout w ++ lines; heap := heap w |}).

(** The exact effect of each optional registration on the registry. *)
Inductive adds_openweathermap (fw : Framework) (reg : gmap string Tool)
    : gmap string Tool → Prop :=
  | openweathermap_added mgr :
      env_truthy (environ fw) "OWM_API_KEY" = true →
      ¬ raises (import_pyowm fw) →
      OWM_weather_manager fw (default "" (environ fw !! "OWM_API_KEY"))
        = Ok mgr →
      adds_openweathermap fw reg
        (<[ "openweathermap" := openweathermap_tool mgr ]> reg)
  | openweathermap_skipped :
      (env_truthy (environ fw) "OWM_API_KEY" = false
       ∨ raises (import_pyowm fw)
       ∨ raises (OWM_weather_manager fw
                   (default "" (environ fw !! "OWM_API_KEY")))) →
      adds_openweathermap fw reg reg.

Inductive adds_wolfram_alpha (fw : Framework) (reg : gmap string Tool)
    : gmap string Tool → Prop :=
  | wolfram_alpha_added base :
      env_truthy (environ fw) "WOLFRAM_ALPHA_APPID" = true →
      ¬ raises (import_wolfram_alpha fw) →
      WolframAlphaQueryRun fw = Ok base →
      adds_wolfram_alpha fw reg
        (<[ "wolfram-alpha" := WolframAlphaTool base ]> reg)
  | wolfram_alpha_skipped :
      (env_truthy (environ fw) "WOLFRAM_ALPHA_APPID" = false
       ∨ raises (import_wolfram_alpha fw)
       ∨ raises (WolframAlphaQueryRun fw)) →
      adds_wolfram_alpha fw reg reg.

Inductive adds_google_search (fw : Framework) (reg : gmap string Tool)
    : gmap string Tool → Prop :=
  | google_search_community t :
      env_truthy (environ fw) "GOOGLE_API_KEY" = true →
      env_truthy (environ fw) "GOOGLE_CSE_ID" = true →
      GoogleSearchRun_community fw = Ok t →
      adds_google_search fw reg (<[ "google-search" := t ]> reg)
  | google_search_deprecated e t :
      env_truthy (environ fw) "GOOGLE_API_KEY" = true →
      env_truthy (environ fw) "GOOGLE_CSE_ID" = true →
      GoogleSearchRun_community fw = Raise e → is_ImportError e = true →
      GoogleSearchRun_deprecated fw = Ok t →
      adds_google_search fw reg (<[ "google-search" := t ]> reg)
  | google_search_skipped :
      (env_truthy (environ fw) "GOOGLE_API_KEY" = false
       ∨ env_truthy (environ fw) "GOOGLE_CSE_ID" = false
       ∨ (∃ e, GoogleSearchRun_community fw = Raise e
               ∧ (is_ImportError e = false
                  ∨ raises (GoogleSearchRun_deprecated fw)))) →
      adds_google_search fw reg reg.

(** What the first block of [load_tools] leaves in [ddg_tool]. *)
Inductive ddg_outcome (fw : Framework) : option Tool → Prop :=
  | ddg_custom :
      import_ddgs fw = Ok tt → ddg_outcome fw (Some (ddg_search_tool fw))
  | ddg_fallback e t :
      import_ddgs fw = Raise e → is_ImportError e = true →
      DuckDuckGoSearchRun fw = Ok t → ddg_outcome fw (Some t)
  | ddg_none e :
      import_ddgs fw = Raise e → is_ImportError e = true →
      raises (DuckDuckGoSearchRun fw) → ddg_outcome fw None.

(** The registry as [load_tools] assembles it: the five entries of the
    dictionary literal, then each optional registration in turn. *)
Inductive assembled (fw : Framework) (llm : option LLM)
    : gmap string Tool → Prop :=
  | assembled_from d prompt a arxiv wikipedia run reg1 reg2 reg3 :
      ddg_outcome fw d →
      hub_pull fw "hwchase17/self-ask-with-search" = Ok prompt →
      create_self_ask_with_search_agent fw llm [search_tool d] prompt = Ok a →
      ArxivQueryRun fw = Ok arxiv →
      WikipediaQueryRun fw = Ok wikipedia →
      LLMMathChain_from_llm fw llm = Ok run →
      adds_openweathermap fw
        (add_ddg_search d
           (<[ "critical_search" :=
                 self_ask_tool fw
                   {| agent := a;
                      tools := [search_tool d];
                      handle_parsing_errors := true;
                      max_iterations := None;
                      early_stopping_method := None;
                      verbose := None;
                      memory := None |} ]>
            (<[ "llm-math" := calculator_tool run ]>
            (<[ "python_repl" := python_repl_tool fw ]>
            (<[ "wikipedia" := wikipedia ]>
            (<[ "arxiv" := arxiv ]> ∅))))))
        reg1 →
      adds_wolfram_alpha fw reg1 reg2 →
      adds_google_search fw reg2 reg3 →
      assembled fw llm reg3.

(** The model name [create_llm] hands to the client constructor. *)
Definition effective_model (model_name : string) : string :=
  if String.prefix "gpt-" model_name || String.prefix "Qwen/" model_name
  then model_name else "gpt-3.5-turbo".

(** How the script shows one message of the memory. *)
Definition replayed (msg : Message) : UIEvent :=
  match msg with
  | HumanMessage content => ChatWrite "user" (VStr content)
  | AIMessage content => ChatWrite "assistant" (VStr content)
  end.

(** Credentials for every optional capability. *)
Definition credentials : gmap string string :=
  <[ "OWM_API_KEY" := "owm-key" ]>
  (<[ "WOLFRAM_ALPHA_APPID" := "wolfram-id" ]>
  (<[ "GOOGLE_API_KEY" := "google-key" ]>
  (<[ "GOOGLE_CSE_ID" := "google-cse" ]> ∅))).

(** Everything installed and every credential set. *)
Definition full : Framework :=
  stub_framework credentials true (fun q => Ok q) echo_agent
    (fun _ _ _ => Ok ({[ "output" := VStr "done" ]}, [])).

Definition full_registry : gmap string Tool :=
  <[ "google-search" := stub_tool "google_search" ]>
  (<[ "wolfram-alpha" := WolframAlphaTool (stub_tool "wolfram_alpha") ]>
  (<[ "openweathermap" :=
        openweathermap_tool
          (fun _ => Raise (Exn RuntimeError "Unable to find the resource")) ]>
   healthy_registry)).

(** A stand-in for Python's [str]. *)
Definition stub_str (v : PyVal) : string :=
  match v with
  | VStr s => s
  | _ => "<value>"
  end.

(** The chain fails with the given exception. *)
Definition chain_raising (e : exn) : Framework :=
  stub_framework ∅ true (fun q => Ok q) echo_agent (fun _ _ _ => Raise e).

(** ** Rules for the effect monad *)

Section wp_rules.
Context {A B : Type}.

Lemma wp_ret (a : A) w Φ : Φ (Ok a) w → wp (mret a) w Φ.
Proof. done. Qed.

Lemma wp_lift (r : result A) w Φ : Φ r w → wp (lift r) w Φ.
Proof. done. Qed.

Lemma wp_bind (m : M A) (k : A → M B) w Φ :
  wp m w (λ r w', match r with
                  | Ok a => wp (k a) w' Φ
                  | Raise e => Φ (Raise e) w'
                  end) →
  wp (m ≫= k) w Φ.
Proof.
  unfold wp, mbind, M_bind. destruct (m w) as [[a|e] w']; simpl; done.
Qed.

Lemma wp_try_except (body : M A) (catches : exn → bool)
    (handler : exn → M A) w Φ :
  wp body w (λ r w', match r with
                     | Ok a => Φ (Ok a) w'
                     | Raise e => if catches e then wp (handler e) w' Φ
                                  else Φ (Raise e) w'
                     end) →
  wp (try_except body catches handler) w Φ.
Proof.
  unfold wp, try_except. destruct (body w) as [[a|e] w']; simpl; [done|].
  by destruct (catches e).
Qed.

Lemma wp_mono (m : M A) w (Φ Ψ : result A → World → Prop) :
  wp m w Φ → (∀ r w', Φ r w' → Ψ r w') → wp m w Ψ.
Proof. unfold wp. auto. Qed.

Lemma wp_seq (m : M A) (k : A → M B) w Ψ Φ :
  wp m w Ψ →
  (∀ r w', Ψ r w' → match r with
                    | Ok a => wp (k a) w' Φ
                    | Raise e => Φ (Raise e) w'
                    end) →
  wp (m ≫= k) w Φ.
Proof. intros Hm Hk. apply wp_bind. eapply wp_mono; eauto. Qed.
End wp_rules.

Lemma wp_print line w Φ :
  Φ (Ok tt) {| stdout := stdout w ++ [line]; heap := heap w |} →
  wp (print line) w Φ.
Proof. done. Qed.

(** One step of symbolic execution of a monadic program. *)
Ltac wp_step :=
  cbv beta iota delta [any_Exception];
  lazymatch goal with
  | |- wp (mret _) _ _ => apply wp_ret
  | |- wp (lift ?r) _ _ => apply wp_lift; destruct r eqn:?
  | |- wp (print _) _ _ => apply wp_print
  | |- wp (_ ≫= _) _ _ => apply wp_bind
  | |- wp (try_except _ _ _) _ _ => apply wp_try_except
  | |- wp (if ?b then _ else _) _ _ => destruct b eqn:?
  | |- (if ?b then _ else _) => destruct b eqn:?
  end.

Ltac wp_run := repeat wp_step; cbv beta iota.

Section registry.
Context (fw : Framework) (llm : option LLM).

Lemma registry_ok_insert (reg : gmap string Tool) (k : string) (t : Tool) :
  registered fw llm k t → registry_ok fw llm reg →
  registry_ok fw llm (<[k := t]> reg).
Proof.
  intros Hk Hreg k' t' Ht'.
  apply lookup_insert_Some in Ht' as [[<- <-]|[_ Ht']]; [done|].
  by apply Hreg.
Qed.

Lemma registry_ok_empty : registry_ok fw llm ∅.
Proof. intros k t Ht. by rewrite lookup_empty in Ht. Qed.

Lemma ddg_tool_spec w :
  wp (ddg_tool fw) w (λ r _,
    match r with
    | Ok (Some t) => registered fw llm "ddg-search" t
    | Ok None => True
    | Raise e => registry_failure fw llm e
    end).
Proof.
  unfold ddg_tool. wp_run; try done.
  - destruct a. by constructor.
  - by econstructor.
  - by constructor.
Qed.

Lemma self_ask_agent_spec d w :
  wp (self_ask_agent fw llm d) w (λ r _,
    match r with
    | Ok _ => True
    | Raise e => registry_failure fw llm e
    end).
Proof.
  unfold self_ask_agent. wp_run; try done.
  - by econstructor 3.
  - by constructor 2.
Qed.

Lemma base_tools_spec ae w :
  wp (base_tools fw llm ae) w (λ r _,
    match r with
    | Ok reg => registry_ok fw llm reg
    | Raise e => registry_failure fw llm e
    end).
Proof.
  unfold base_tools. wp_run; simplify_eq;
    try (by constructor 4); try (by constructor 5); try (by constructor 6).
  repeat (apply registry_ok_insert; [by constructor|]).
  apply registry_ok_empty.
Qed.

Lemma add_openweathermap_spec reg w :
  wp (add_openweathermap fw reg) w (optional_post fw llm reg).
Proof.
  unfold add_openweathermap, optional_post. wp_run; try done.
  intros. apply registry_ok_insert; [constructor|done].
Qed.

Lemma add_wolfram_alpha_spec reg w :
  wp (add_wolfram_alpha fw reg) w (optional_post fw llm reg).
Proof.
  unfold add_wolfram_alpha, optional_post. wp_run; try done.
  intros. apply registry_ok_insert; [by constructor|done].
Qed.

Lemma add_google_search_spec reg w :
  wp (add_google_search fw reg) w (optional_post fw llm reg).
Proof.
  unfold add_google_search, optional_post. wp_run; try done.
  - intros. apply registry_ok_insert; [constructor; by left|done].
  - intros. apply registry_ok_insert; [constructor; by right|done].
Qed.

Lemma add_ddg_search_ok d reg :
  match d with Some t => registered fw llm "ddg-search" t | None => True end →
  registry_ok fw llm reg → registry_ok fw llm (add_ddg_search d reg).
Proof. destruct d; simpl; [|done]. intros. by apply registry_ok_insert. Qed.

(** Registry construction: the dictionary it returns holds only what
    [registered] allows, and it raises only on a [registry_failure]. *)
Lemma available_tools_spec w :
  wp (available_tools fw llm) w (λ r _,
    match r with
    | Ok reg => registry_ok fw llm reg
    | Raise e => registry_failure fw llm e
    end).
Proof.
  unfold available_tools.
  eapply wp_seq; [apply ddg_tool_spec|]. intros [d|e] w1 Hd; [|done].
  eapply wp_seq; [apply self_ask_agent_spec|]. intros [ae|e] w2 Hae; [|done].
  eapply wp_seq; [apply base_tools_spec|]. intros [reg|e] w3 Hreg; [|done].
  eapply wp_seq; [apply add_openweathermap_spec|].
  intros [reg1|e] w4 H1; [|done].
  eapply wp_seq; [apply add_wolfram_alpha_spec|].
  intros [reg2|e] w5 H2; [|done].
  eapply wp_mono; [apply add_google_search_spec|].
  intros [reg3|e] w6 H3; [|done].
  apply H3, H2, H1, add_ddg_search_ok; [|done].
  by destruct d.
Qed.
End registry.

(** ** The resolution loop *)

Lemma load_tools_run fw tool_names llm w :
  load_tools fw tool_names llm w =
  match available_tools fw llm w with
  | (Ok reg, w') => for_each tool_names (resolve_name reg) [] w'
  | (Raise e, w') => (Raise e, w')
  end.
Proof.
  unfold load_tools, mbind, M_bind.
  by destruct (available_tools fw llm w) as [[reg|e] w'].
Qed.

Lemma for_each_cons {A S} (x : A) xs (body : A → S → M S) acc w :
  for_each (x :: xs) body acc w =
  match body x acc w with
  | (Ok acc', w') => for_each xs body acc' w'
  | (Raise e, w') => (Raise e, w')
  end.
Proof.
  cbn [for_each]. unfold mbind, M_bind.
  by destruct (body x acc w) as [[acc'|e] w'].
Qed.

Lemma resolve_name_run reg n acc w :
  resolve_name reg n acc w =
  match reg !! n with
  | Some t => (Ok (acc ++ [t]), w)
  | None =>
      (Ok acc,
       {| stdout := stdout w ++
            ["Warning: Tool '" +:+ n +:+ "' not found in available tools."];
          heap := heap w |})
  end.
Proof. unfold resolve_name. by destruct (reg !! n). Qed.

Lemma for_each_resolve reg tool_names acc w :
  for_each tool_names (resolve_name reg) acc w =
  (Ok (acc ++ omap (reg !!.) tool_names),
   {| stdout := stdout w ++ not_found_warnings reg tool_names;
      heap := heap w |}).
Proof.
  revert acc w. induction tool_names as [|n ns IH]; intros acc w.
  - destruct w. unfold not_found_warnings. simpl. by rewrite !app_nil_r.
  - rewrite for_each_cons, resolve_name_run.
    cbn [omap list_omap]. unfold not_found_warnings.
    destruct (reg !! n) as [t|] eqn:Hn.
    + rewrite filter_cons_False by congruence.
      rewrite IH. by rewrite <- app_assoc.
    + rewrite filter_cons_True by done.
      rewrite IH. simpl. by rewrite <- app_assoc.
Qed.

Lemma available_tools_registered fw llm w reg w' :
  available_tools fw llm w = (Ok reg, w') → registry_ok fw llm reg.
Proof.
  intros H. pose proof (available_tools_spec fw llm w) as Hs.
  unfold wp in Hs. by rewrite H in Hs.
Qed.

Lemma registered_known fw llm k t :
  registered fw llm k t →
  k ∈ ["arxiv"; "wikipedia"; "python_repl"; "llm-math"; "critical_search";
       "ddg-search"; "openweathermap"; "wolfram-alpha"; "google-search"].
Proof. destruct 1; rewrite !elem_of_cons; auto 12. Qed.

(** C2. Resolution returns exactly the descriptors of the requested
    names that are in the registry, in request order, prints one warning
    for each name that is not, and whether [load_tools] raises does not
    depend on the names.  With wikipedia registered, requesting
    ["wikipedia"; "nonexistent-tool"] yields the wikipedia tool alone
    and one warning. *)
Theorem load_tools_partial_success fw llm tool_names w reg w' :
  available_tools fw llm w = (Ok reg, w') →
  load_tools fw tool_names llm w =
    (Ok (omap (reg !!.) tool_names),
     {| stdout := stdout w' ++ not_found_warnings reg tool_names;
        heap := heap w' |})
  ∧ (∀ names, ¬ raises (load_tools fw names llm w).1)
  ∧ (∀ wikipedia, reg !! "wikipedia" = Some wikipedia →
       load_tools fw ["wikipedia"; "nonexistent-tool"] llm w =
         (Ok [wikipedia],
          {| stdout := stdout w' ++
               ["Warning: Tool 'nonexistent-tool' not found in available tools."];
             heap := heap w' |})).
Proof.
  intros Hreg.
  assert (Hrun : ∀ names, load_tools fw names llm w =
    (Ok (omap (reg !!.) names),
     {| stdout := stdout w' ++ not_found_warnings reg names;
        heap := heap w' |})).
  { intros names. rewrite load_tools_run, Hreg. apply for_each_resolve. }
  split; [apply Hrun|]. split.
  - intros names. rewrite Hrun. intros [].
  - intros wikipedia Hw. rewrite Hrun.
    assert (Hno : reg !! "nonexistent-tool" = None).
    { destruct (reg !! "nonexistent-tool") as [t|] eqn:Ht; [|done].
      apply (available_tools_registered _ _ _ _ _ Hreg) in Ht.
      apply registered_known, list_elem_of_In in Ht.
      simpl in Ht. intuition discriminate. }
    unfold not_found_warnings. cbn [omap list_omap].
    rewrite Hw, Hno.
    rewrite filter_cons_False by (rewrite Hw; done).
    rewrite filter_cons_True by done.
    by rewrite filter_nil.
Qed.

Lemma load_tools_partial_success_witness :
  load_tools healthy ["wikipedia"; "nonexistent-tool"] (Some gpt4)
    initial_world =
  (Ok [stub_tool "wikipedia"],
   {| stdout := info_lines ++
        ["Warning: Tool 'nonexistent-tool' not found in available tools."];
      heap := {[ MEMORY := init_memory ]} |}).
Proof.
  refine (proj2 (proj2 (load_tools_partial_success healthy (Some gpt4)
    ["wikipedia"] initial_world healthy_registry healthy_world _))
    (stub_tool "wikipedia") _); reflexivity.
Defined.

(** ** Duplicates *)

Lemma omap_lookup_NoDup (reg : gmap string Tool) (names : list string) :
  (∀ k1 k2 t1 t2, reg !! k1 = Some t1 → reg !! k2 = Some t2 →
     name t1 = name t2 → k1 = k2) →
  NoDup names → NoDup (name <$> omap (reg !!.) names).
Proof.
  intros Hinj. induction 1 as [|n ns Hn Hns IH]; [constructor|].
  cbn [omap list_omap]. destruct (reg !! n) as [t|] eqn:Ht; [|done].
  rewrite fmap_cons. constructor; [|done].
  intros Hin. apply list_elem_of_fmap in Hin as (t' & Heq & Hin).
  apply list_elem_of_omap in Hin as (n' & Hn' & Ht').
  assert (n = n') by eauto. by subst.
Qed.

(** C7 (as amended). When the request repeats no name and the
    descriptors of the registry carry pairwise distinct names, the bound
    sequence holds no two descriptors with the same name. *)
Theorem load_tools_no_duplicates fw llm tool_names w reg w' :
  available_tools fw llm w = (Ok reg, w') →
  (∀ k1 k2 t1 t2, reg !! k1 = Some t1 → reg !! k2 = Some t2 →
     name t1 = name t2 → k1 = k2) →
  NoDup tool_names →
  ∃ tools w'', load_tools fw tool_names llm w = (Ok tools, w'')
               ∧ NoDup (name <$> tools).
Proof.
  intros Hreg Hinj Hnames. rewrite load_tools_run, Hreg, for_each_resolve.
  eexists _, _. split; [done|]. by apply omap_lookup_NoDup.
Qed.

Lemma healthy_names_distinct k1 k2 t1 t2 :
  registered healthy (Some gpt4) k1 t1 →
  registered healthy (Some gpt4) k2 t2 →
  name t1 = name t2 → k1 = k2.
Proof.
  intros H1 H2.
  destruct H1; destruct H2; try reflexivity;
    repeat match goal with
    | H : _ ∨ _ |- _ => destruct H
    end;
    cbn in *; simplify_eq; cbn; try reflexivity; discriminate.
Qed.

Lemma load_tools_no_duplicates_witness :
  ∃ tools w'',
    load_tools healthy ["wikipedia"; "arxiv"] (Some gpt4) initial_world
      = (Ok tools, w'')
    ∧ NoDup (name <$> tools).
Proof.
  apply (load_tools_no_duplicates healthy (Some gpt4) ["wikipedia"; "arxiv"]
           initial_world healthy_registry healthy_world).
  - reflexivity.
  - intros k1 k2 t1 t2 H1 H2.
    assert (Hok : registry_ok healthy (Some gpt4) healthy_registry)
      by (by apply (available_tools_registered _ _ initial_world _
                      healthy_world)).
    apply healthy_names_distinct; by apply Hok.
  - apply NoDup_ListNoDup. repeat constructor; simpl; intuition discriminate.
Defined.

(** C7, as stated, fails: a name requested twice is bound twice. *)
Lemma load_tools_repeats_requested_name :
  load_tools healthy ["wikipedia"; "wikipedia"] (Some gpt4) initial_world
    = (Ok [stub_tool "wikipedia"; stub_tool "wikipedia"], healthy_world)
  ∧ ¬ NoDup (name <$> [stub_tool "wikipedia"; stub_tool "wikipedia"]).
Proof.
  split; [reflexivity|].
  intros H. apply NoDup_cons in H as [H _]. apply H. simpl. by left.
Qed.

(** ** Eager construction *)

Lemma wp_any {A} (m : M A) w : wp m w (λ _ _, True).
Proof. done. Qed.

Lemma available_tools_eager fw llm w :
  (∀ ts prompt, raises (create_self_ask_with_search_agent fw llm ts prompt))
  ∨ raises (LLMMathChain_from_llm fw llm) →
  raises (available_tools fw llm w).1.
Proof.
  intros H. change (wp (available_tools fw llm) w (λ r _, raises r)).
  unfold available_tools.
  eapply wp_seq; [apply wp_any|]. intros [d|e] w1 _; [|done].
  destruct H as [H|H].
  - apply wp_bind. unfold self_ask_agent. wp_run; try done.
    specialize (H [search_tool d] a). by rewrite Heqr0 in H.
  - eapply wp_seq; [apply wp_any|]. intros [ae|e] w2 _; [|done].
    apply wp_bind. unfold base_tools. wp_run; done.
Qed.

Lemma load_tools_raises fw tool_names llm w :
  raises (available_tools fw llm w).1 → raises (load_tools fw tool_names llm w).1.
Proof.
  rewrite load_tools_run. by destruct (available_tools fw llm w) as [[reg|e] w'].
Qed.

(** C10. [load_tools] builds the self-ask sub-agent and the calculator
    chain on every call, whatever names are requested: when either
    constructor rejects the model it is given, [load_tools] raises for
    every request, the empty one included.  In particular with
    [llm = None], the default, it raises during registry construction
    as soon as one of the two constructors rejects a missing model. *)
Theorem load_tools_eager fw tool_names w :
  (∀ llm,
     (∀ ts prompt, raises (create_self_ask_with_search_agent fw llm ts prompt))
     ∨ raises (LLMMathChain_from_llm fw llm) →
     raises (load_tools fw tool_names llm w).1)
  ∧ ((∀ ts prompt, raises (create_self_ask_with_search_agent fw None ts prompt))
     ∨ raises (LLMMathChain_from_llm fw None) →
     raises (available_tools fw None w).1
     ∧ raises (load_tools fw tool_names None w).1).
Proof.
  split.
  - intros llm H. by apply load_tools_raises, available_tools_eager.
  - intros H. split; [|apply load_tools_raises]; by apply available_tools_eager.
Qed.

Lemma load_tools_eager_witness :
  raises (available_tools healthy None initial_world).1
  ∧ raises (load_tools healthy [] None initial_world).1.
Proof.
  apply (proj2 (load_tools_eager healthy [] initial_world)).
  left. intros ts prompt. simpl. exact I.
Defined.

(** ** Guarded and unguarded capabilities *)

Lemma CustomDuckDuckGoSearch_search_total fw query :
  (∃ s, CustomDuckDuckGoSearch_search fw query = Ok s)
  ∧ (∀ e, ddgs_text fw query 5 = Raise e →
       CustomDuckDuckGoSearch_search fw query
         = Ok ("Search failed: " +:+ exn_str e)).
Proof.
  unfold CustomDuckDuckGoSearch_search.
  destruct (ddgs_text fw query 5) as [results|e]; split; eauto; congruence.
Qed.

Lemma get_current_weather_total mgr location :
  (∃ s, get_current_weather mgr location = Ok s)
  ∧ (∀ e, mgr location = Raise e →
       get_current_weather mgr location
         = Ok ("Could not retrieve weather data for " +:+ location +:+ ": "
               +:+ exn_str e)).
Proof.
  unfold get_current_weather.
  destruct (mgr location) as [weather|e]; split; eauto; congruence.
Qed.

Lemma WolframAlphaTool_total base query :
  (∃ s, func (WolframAlphaTool base) query = Ok s)
  ∧ (∀ e, func base query = Raise e →
       func (WolframAlphaTool base) query
         = Ok ("Wolfram Alpha query failed: " +:+ exn_str e
               +:+ ". Please try a different tool or rephrase your query.")).
Proof.
  cbn [WolframAlphaTool func].
  destruct (func base query) as [answer|e]; split; eauto; congruence.
Qed.

(** C4, as stated, fails: the calculator's callable is the chain's own
    [run]; when the chain raises, so does the capability. *)
Lemma llm_math_failure_propagates :
  load_tools math_fails ["llm-math"] (Some gpt4) initial_world
    = (Ok [calculator_tool
             (fun q => Raise (Exn ValueError ("unknown format from LLM: " +:+ q)))],
       healthy_world)
  ∧ Tool_invoke
      (calculator_tool
         (fun q => Raise (Exn ValueError ("unknown format from LLM: " +:+ q))))
      "2 + 2"
    = Raise (Exn ValueError "unknown format from LLM: 2 + 2").
Proof. split; reflexivity. Qed.

(** ** The plan-and-execute wrapper *)

Lemma PlanAndExecuteWrapper_invoke_run fw pe input w :
  PlanAndExecuteWrapper_invoke fw pe input w =
  match PlanAndExecute_invoke fw pe
          {[ "input" := default (VStr "") (input !! "input") ]} w with
  | (Ok raw, w') => (wrapper_output raw, w')
  | (Raise e, w') => (Raise e, w')
  end.
Proof.
  unfold PlanAndExecuteWrapper_invoke, wrapper_output, mbind, M_bind.
  destruct (PlanAndExecute_invoke fw pe _ w) as [[raw|e] w']; [|done].
  destruct (match raw !! "output" with
            | None => true | Some output => negb (truthy output) end);
    [|done].
  destruct (raw !! "intermediate_steps") as [steps|]; [|done].
  unfold lift. by destruct (reversed steps).
Qed.

Lemma scan_steps_no_response steps result :
  Forall no_response steps → scan_steps steps result = result.
Proof.
  induction 1 as [|step steps Hstep _ IH]; [done|].
  cbn [scan_steps]. destruct step; try done.
  cbn [no_response] in Hstep. by rewrite Hstep.
Qed.

Lemma scan_steps_last_response l1 d l2 v result :
  d !! "response" = Some v → Forall no_response l2 →
  scan_steps (reverse (l1 ++ VDict d :: l2)) result
    = <[ "output" := v ]> result.
Proof.
  intros Hd Hl2. rewrite reverse_app, reverse_cons, <- app_assoc.
  assert (Hrev : Forall no_response (reverse l2)) by by apply Forall_reverse.
  induction Hrev as [|step steps Hstep _ IH].
  - cbn. by rewrite Hd.
  - cbn [app scan_steps]. destruct step; try done.
    cbn [no_response] in Hstep. by rewrite Hstep.
Qed.

Lemma no_answer_nonempty : no_answer ≠ "".
Proof. discriminate. Qed.

(** What the wrapper answers with, given what the chain returned: the
    chain's output when that is truthy; the truthy response of the last
    intermediate step that has one when the chain gave no usable output;
    and the fallback text, which is not empty, when the chain gave no
    output and no step has a response.  Under zero-shot-react the
    session is the framework's executor itself and its result is passed
    on as it is. *)
Lemma invoke_output fw planner executor pe ae input w raw w' :
  PlanAndExecute_invoke fw pe
    {[ "input" := default (VStr "") (input !! "input") ]} w = (Ok raw, w') →
  invoke fw (ReActAgentExecutor ae) input = AgentExecutor_invoke fw ae input
  ∧ (∀ v, raw !! "output" = Some v → truthy v = true →
       ∃ d, invoke fw (PlanAndExecuteWrapper planner executor pe) input w
              = (Ok d, w')
            ∧ d !! "output" = Some v)
  ∧ (∀ l1 d l2 v,
       (raw !! "output" = None
        ∨ ∃ o, raw !! "output" = Some o ∧ truthy o = false) →
       raw !! "intermediate_steps" = Some (VList (l1 ++ VDict d :: l2)) →
       d !! "response" = Some v → Forall no_response l2 →
       truthy v = true →
       ∃ d', invoke fw (PlanAndExecuteWrapper planner executor pe) input w
               = (Ok d', w')
             ∧ d' !! "output" = Some v)
  ∧ (raw !! "output" = None →
     (raw !! "intermediate_steps" = None
      ∨ ∃ l, raw !! "intermediate_steps" = Some (VList l)
             ∧ Forall no_response l) →
     ∃ d, invoke fw (PlanAndExecuteWrapper planner executor pe) input w
            = (Ok d, w')
          ∧ d !! "output" = Some (VStr no_answer))
  ∧ no_answer ≠ "".
Proof.
  intros Hcall. split; [done|].
  cbn [invoke]. rewrite PlanAndExecuteWrapper_invoke_run, Hcall.
  unfold wrapper_output.
  split; [|split; [|split; [|apply no_answer_nonempty]]].
  - intros v Hv Htruthy. rewrite Hv, Htruthy. cbn [negb].
    eexists. split; [done|].
    rewrite lookup_insert_ne by done. rewrite lookup_insert_eq. by rewrite Hv.
  - intros l1 d l2 v Hout Hsteps Hd Hl2 _.
    assert (match raw !! "output" with
            | None => true | Some output => negb (truthy output) end = true)
      as ->.
    { destruct Hout as [->|(o & -> & ->)]; done. }
    rewrite Hsteps. cbn [reversed].
    rewrite (scan_steps_last_response _ _ _ v) by done.
    eexists. split; [done|].
    rewrite lookup_insert_ne by done. rewrite lookup_insert_eq.
    by rewrite lookup_insert_eq.
  - intros Hout Hsteps. rewrite Hout.
    destruct Hsteps as [->|(l & -> & Hl)].
    + eexists. split; [done|].
      rewrite lookup_insert_ne by done. rewrite lookup_insert_eq.
      by rewrite Hout.
    + cbn [reversed]. rewrite scan_steps_no_response
        by by apply Forall_reverse.
      eexists. split; [done|].
      rewrite lookup_insert_ne by done. rewrite lookup_insert_eq.
      by rewrite Hout.
Qed.

Lemma invoke_output_witness :
  ∃ d, invoke (chain_returning ∅) plan_session {[ "input" := VStr "hello" ]}
         healthy_world = (Ok d, healthy_world)
       ∧ d !! "output" = Some (VStr no_answer).
Proof.
  refine (proj1 (proj2 (proj2 (proj2
    (invoke_output (chain_returning ∅) (ChatPlanner gpt4)
       (ChatAgentExecutor gpt4 [] true) _
       {| agent := echo_agent; tools := []; handle_parsing_errors := true;
          max_iterations := None; early_stopping_method := None;
          verbose := None; memory := None |}
       {[ "input" := VStr "hello" ]} healthy_world ∅ healthy_world _))))
    _ _); [reflexivity|reflexivity|by left].
Defined.

(** C1. The code at the input where it leaves the claim: the session
    [load_agent] builds for plan-and-solve hands the chain's empty
    output back empty, although the guard before it counts an empty
    output as none; the fallback text is substituted when the chain's
    result has no output entry at all. *)
Theorem invoke_returns_empty_output :
  load_agent (chain_returning {[ "output" := VStr "" ]}) []
    "plan-and-solve" "gpt-4" initial_world
    = (Ok plan_session, healthy_world)
  ∧ (invoke (chain_returning {[ "output" := VStr "" ]}) plan_session
       {[ "input" := VStr "hello" ]} healthy_world).1
    = Ok (<[ "intermediate_steps" := VList [] ]>
          (<[ "output" := VStr "" ]> ∅))
  ∧ (invoke (chain_returning ∅) plan_session
       {[ "input" := VStr "hello" ]} healthy_world).1
    = Ok (<[ "intermediate_steps" := VList [] ]>
          (<[ "output" := VStr no_answer ]> ∅)).
Proof. repeat split; reflexivity. Qed.

(** C5. The code at the inputs where it leaves the claim: with an empty
    output the scan takes the response of the last step that has one,
    empty or not, and an empty output with no usable step is handed back
    as it is; the fallback text is used in neither case. *)
Theorem fallback_keeps_empty_answer :
  (invoke
     (chain_returning
        (<[ "intermediate_steps" :=
              VList [response_step "42"; response_step ""] ]>
         (<[ "output" := VStr "" ]> ∅)))
     plan_session {[ "input" := VStr "6 * 7" ]} healthy_world).1
  = Ok (<[ "intermediate_steps" :=
             VList [response_step "42"; response_step ""] ]>
        (<[ "output" := VStr "" ]> ∅))
  ∧ (invoke
       (chain_returning
          (<[ "intermediate_steps" := VList [response_step ""] ]> ∅))
       plan_session {[ "input" := VStr "6 * 7" ]} healthy_world).1
    = Ok (<[ "intermediate_steps" := VList [response_step ""] ]>
          (<[ "output" := VStr "" ]> ∅))
  ∧ (invoke (chain_returning {[ "output" := VStr "" ]}) plan_session
       {[ "input" := VStr "6 * 7" ]} healthy_world).1
    = Ok (<[ "intermediate_steps" := VList [] ]>
          (<[ "output" := VStr "" ]> ∅)).
Proof. repeat split; reflexivity. Qed.

(** ** The model factory *)

(** C9 (as amended). [create_llm] never reports an unknown model name
    and has no failure of its own: a name starting with "gpt-" or
    "Qwen/" is passed to the client constructor as given, any other name
    is replaced by "gpt-3.5-turbo", so that all other names give one and
    the same result.  There is no handler around the constructor:
    [create_llm] raises exactly when the constructor raises for the name
    it is passed, with the constructor's exception. *)
Theorem create_llm_dispatch fw model_name :
  create_llm fw model_name
    = ChatOpenAI fw
        (if String.prefix "gpt-" model_name || String.prefix "Qwen/" model_name
         then model_name else "gpt-3.5-turbo")
        0 true
  ∧ (∀ e, create_llm fw model_name = Raise e ↔
          ChatOpenAI fw
            (if String.prefix "gpt-" model_name
                || String.prefix "Qwen/" model_name
             then model_name else "gpt-3.5-turbo")
            0 true = Raise e)
  ∧ (∀ other,
       String.prefix "gpt-" model_name || String.prefix "Qwen/" model_name
         = false →
       String.prefix "gpt-" other || String.prefix "Qwen/" other = false →
       create_llm fw other = create_llm fw model_name).
Proof.
  assert (Hrun : ∀ m,
    create_llm fw m
      = ChatOpenAI fw
          (if String.prefix "gpt-" m || String.prefix "Qwen/" m
           then m else "gpt-3.5-turbo") 0 true).
  { intros m. unfold create_llm.
    by destruct (String.prefix "gpt-" m), (String.prefix "Qwen/" m). }
  split; [apply Hrun|]. split.
  - intros e. by rewrite Hrun.
  - intros other Hm Ho. by rewrite !Hrun, Hm, Ho.
Qed.

Lemma create_llm_dispatch_witness :
  create_llm healthy "mistral-7b" = create_llm healthy "llama-3".
Proof.
  apply (proj2 (proj2 (create_llm_dispatch healthy "llama-3")) "mistral-7b");
    reflexivity.
Defined.

(** C9, as stated, fails: without a usable client the factory raises,
    for a name of a known family and for any other name. *)
Lemma create_llm_raises_without_client :
  create_llm (without_client healthy) "gpt-4"
    = Raise (Exn ValueError "Did not find openai_api_key")
  ∧ create_llm (without_client healthy) "llama-3"
    = Raise (Exn ValueError "Did not find openai_api_key").
Proof. split; reflexivity. Qed.

(** ** The agent builder *)










(** ** The bounded reasoning loop *)

Lemma iterate_result fw ae method history remaining steps input answer steps' :
  iterate fw ae method history remaining steps input = Ok (answer, steps') →
  (length steps' < length steps + remaining
   ∧ plan (agent ae) history steps' input = Ok (AgentFinish answer))
  ∨ (length steps' = length steps + remaining
     ∧ return_stopped_response fw method steps' = Ok answer).
Proof.
  revert steps. induction remaining as [|n IH]; intros steps; cbn [iterate].
  - destruct (return_stopped_response fw method steps) as [a|e] eqn:Hstop;
      [|done].
    intros [= <- <-]. right. split; [lia|done].
  - destruct (plan (agent ae) history steps input) as [[a|tool q|text]|e] eqn:Hp;
      [| | |done].
    + intros [= <- <-]. left. split; [lia|done].
    + destruct (observe (tools ae) tool q) as [obs|e]; [|done].
      intros H. apply IH in H. rewrite length_app in H. cbn in H.
      destruct H as [[Hl Hf]|[Hl Hf]]; [left|right]; (split; [lia|done]).
    + destruct (handle_parsing_errors ae); [|done].
      intros H. apply IH in H. rewrite length_app in H. cbn in H.
      destruct H as [[Hl Hf]|[Hl Hf]]; [left|right]; (split; [lia|done]).
Qed.

Lemma observe_total ts tool q :
  (∀ t query, t ∈ ts → ¬ raises (Tool_invoke t query)) →
  ¬ raises (observe ts tool q).
Proof.
  intros Hts. unfold observe.
  destruct (List.find _ ts) as [t|] eqn:Hfind; [|intros []].
  apply Hts. apply List.find_some in Hfind as [Hin _].
  by apply list_elem_of_In.
Qed.

(** A loop whose model never gives a final answer uses up its bound, and
    its outcome is what the framework makes of the early-stopping
    method. *)
Lemma iterate_exhausted fw ae method history remaining steps input :
  handle_parsing_errors ae = true →
  (∀ steps, ¬ raises (plan (agent ae) history steps input)) →
  (∀ steps a, plan (agent ae) history steps input ≠ Ok (AgentFinish a)) →
  (∀ t query, t ∈ tools ae → ¬ raises (Tool_invoke t query)) →
  ∃ steps',
    length steps' = length steps + remaining
    ∧ iterate fw ae method history remaining steps input
      = match return_stopped_response fw method steps' with
        | Ok answer => Ok (answer, steps')
        | Raise e => Raise e
        end.
Proof.
  intros Hparse Hplan Hnever Htools. revert steps.
  induction remaining as [|n IH]; intros steps; cbn [iterate].
  - exists steps. split; [lia|done].
  - specialize (Hplan steps). specialize (Hnever steps).
    destruct (plan (agent ae) history steps input) as [[a|tool q|text]|e];
      [by destruct (Hnever a)| | |by destruct Hplan].
    + pose proof (observe_total (tools ae) tool q Htools) as Ho.
      destruct (observe (tools ae) tool q) as [obs|e]; [|by destruct Ho].
      destruct (IH (steps ++ [(AgentAction tool q, obs)])) as (steps' & Hl & Hrun).
      exists steps'. rewrite length_app in Hl. cbn in Hl. split; [lia|done].
    + rewrite Hparse.
      destruct (IH (steps ++ [(ParseFailure text,
                               "Invalid or incomplete response")]))
        as (steps' & Hl & Hrun).
      exists steps'. rewrite length_app in Hl. cbn in Hl. split; [lia|done].
Qed.

Lemma load_agent_react fw tool_names strategy model_name w :
  String.eqb strategy "plan-and-solve" = false →
  wp (load_agent fw tool_names strategy model_name) w (λ r _,
    match r with
    | Ok session =>
        ∃ a ts, session = ReActAgentExecutor
          {| agent := a;
             tools := ts;
             handle_parsing_errors := true;
             max_iterations := Some 15%nat;
             early_stopping_method := Some "generate";
             verbose := Some true;
             memory := Some MEMORY |}
    | Raise _ => True
    end).
Proof.
  intros Hs. unfold load_agent. rewrite Hs.
  apply wp_bind, wp_lift. destruct (create_llm fw model_name); [|done].
  eapply wp_seq; [apply wp_any|]. intros [ts|e] w1 _; [|done].
  wp_run; eauto.
Qed.

(** C6. Under zero-shot-react the executor is configured with at most
    15 iterations and the "generate" early-stopping method.  A run that
    returns has taken fewer than 15 steps and ends with the model's
    final answer, or exactly 15 and ends with the output the framework
    defines for "generate"; it never takes a sixteenth step.  When the
    model never gives a final answer and nothing raises on the way, the
    run uses up the 15 steps and its outcome is the framework's verdict
    on "generate": where the framework defines no stopped response for
    that method, the run raises the framework's exception instead of
    ending with an early-stopping output. *)
Theorem react_loop_at_bound fw tool_names model_name w session w' :
  load_agent fw tool_names "zero-shot-react" model_name w = (Ok session, w') →
  ∃ ae, session = ReActAgentExecutor ae
    ∧ max_iterations ae = Some 15%nat
    ∧ early_stopping_method ae = Some "generate"
    ∧ ∀ history input,
        (∀ answer steps,
           AgentExecutor_call fw ae history input = Ok (answer, steps) →
           (length steps < 15
            ∧ plan (agent ae) history steps input = Ok (AgentFinish answer))
           ∨ (length steps = 15
              ∧ return_stopped_response fw "generate" steps = Ok answer))
        ∧ ((∀ steps, ¬ raises (plan (agent ae) history steps input)) →
           (∀ steps a, plan (agent ae) history steps input
                         ≠ Ok (AgentFinish a)) →
           (∀ t query, t ∈ tools ae → ¬ raises (Tool_invoke t query)) →
           (∃ steps,
              length steps = 15
              ∧ AgentExecutor_call fw ae history input
                = match return_stopped_response fw "generate" steps with
                  | Ok answer => Ok (answer, steps)
                  | Raise e => Raise e
                  end)
           ∧ (∀ e, (∀ steps, return_stopped_response fw "generate" steps
                               = Raise e) →
                AgentExecutor_call fw ae history input = Raise e)).
Proof.
  intros Hload.
  pose proof (load_agent_react fw tool_names "zero-shot-react" model_name w
                eq_refl) as Hs.
  unfold wp in Hs. rewrite Hload in Hs. destruct Hs as (a & ts & ->).
  match goal with
  | |- context [ReActAgentExecutor ?x] => set (ae := x)
  end.
  exists ae. split; [done|]. split; [done|]. split; [done|].
  intros history input.
  change (AgentExecutor_call fw ae history input)
    with (iterate fw ae "generate" history 15 [] input).
  split.
  - intros answer steps H. by apply iterate_result in H.
  - intros Hplan Hnever Htools.
    destruct (iterate_exhausted fw ae "generate" history 15 [] input eq_refl
                Hplan Hnever Htools) as (steps & Hl & Hrun).
    split; [by exists steps|].
    intros e He. by rewrite Hrun, He.
Qed.

Lemma react_loop_at_bound_witness :
  AgentExecutor_call restless restless_executor [] "rocq"
    = Raise (Exn ValueError "Got unsupported early_stopping_method `generate`").
Proof.
  destruct (react_loop_at_bound restless ["wikipedia"] "gpt-4" initial_world
              (ReActAgentExecutor restless_executor) healthy_world eq_refl)
    as (ae & Hae & _ & _ & Hrun).
  injection Hae as <-.
  apply (proj2 (Hrun [] "rocq")).
  - intros steps. simpl. intros [].
  - intros steps a. discriminate.
  - intros t query Ht. apply list_elem_of_In in Ht. simpl in Ht.
    destruct Ht as [<-|[]]. simpl. intros [].
  - intros steps. reflexivity.
Defined.

(** The same run through the session's [invoke], and the same loop
    under the method "force": there the fifteenth step is followed by
    the early-stopping output. *)
Lemma react_loop_generate_and_force :
  (invoke restless (ReActAgentExecutor restless_executor)
     {[ "input" := VStr "rocq" ]} healthy_world).1
    = Raise (Exn ValueError "Got unsupported early_stopping_method `generate`")
  ∧ ∃ steps,
      length steps = 15
      ∧ AgentExecutor_call restless restless_executor_force [] "rocq"
        = Ok ("Agent stopped due to iteration limit or time limit.", steps).
Proof. split; [reflexivity|]. eexists. split; [|reflexivity]. reflexivity. Qed.

(** ** The shared memory *)

Lemma with_memory_fst {A} (l : loc)
    (call : list Message → result (A * list Message)) w :
  (with_memory (Some l) call w).1 =
  match chat_memory <$> heap w !! l with
  | None => Raise (Exn RuntimeError "memory object does not exist")
  | Some history =>
      match call history with
      | Ok (a, _) => Ok a
      | Raise e => Raise e
      end
  end.
Proof.
  unfold with_memory. destruct (heap w !! l) as [m|]; [|done].
  cbn [fmap option_fmap option_map].
  by destruct (call (chat_memory m)) as [[a turns]|e].
Qed.

Lemma PlanAndExecuteWrapper_invoke_fst fw pe input w :
  (PlanAndExecuteWrapper_invoke fw pe input w).1 =
  match (PlanAndExecute_invoke fw pe
           {[ "input" := default (VStr "") (input !! "input") ]} w).1 with
  | Ok raw => wrapper_output raw
  | Raise e => Raise e
  end.
Proof.
  rewrite PlanAndExecuteWrapper_invoke_run.
  by destruct (PlanAndExecute_invoke fw pe _ w) as [[raw|e] w'].
Qed.

(** The outcome of an invocation depends on the world only through the
    conversation held by the memory the session refers to. *)
Lemma invoke_fst_memory fw session input l w1 w2 :
  session_memory session = Some l →
  chat_memory <$> heap w1 !! l = chat_memory <$> heap w2 !! l →
  (invoke fw session input w1).1 = (invoke fw session input w2).1.
Proof.
  intros Hmem Hchat. destruct session as [planner executor pe|ae];
    cbn [invoke session_memory] in *.
  - rewrite !PlanAndExecuteWrapper_invoke_fst. unfold PlanAndExecute_invoke.
    rewrite Hmem, !with_memory_fst. by rewrite Hchat.
  - unfold AgentExecutor_invoke.
    destruct (input !! "input") as [[| | |q| |]|]; try done.
    rewrite Hmem, !with_memory_fst. by rewrite Hchat.
Qed.

Lemma load_agent_memory fw tool_names strategy model_name w :
  wp (load_agent fw tool_names strategy model_name) w (λ r _,
    match r with
    | Ok session => session_memory session = Some MEMORY
    | Raise _ => True
    end).
Proof.
  unfold load_agent.
  apply wp_bind, wp_lift. destruct (create_llm fw model_name); [|done].
  eapply wp_seq; [apply wp_any|]. intros [ts|e] w1 _; [|done].
  wp_run; done.
Qed.

(** C8. Clearing the history empties the conversation of the shared
    memory object and touches nothing else: the output printed so far
    and every other object stay as they are, and the session, which
    holds a reference to that object, is the same value as before.
    Invoking it afterwards gives what invoking it on a fresh memory
    gives; no rebuild is involved. *)
Theorem clear_keeps_session fw tool_names strategy model_name w0 session w1
    w input :
  load_agent fw tool_names strategy model_name w0 = (Ok session, w1) →
  is_Some (heap w !! MEMORY) →
  (clear_message_history w).1 = Ok tt
  ∧ chat_memory <$> heap (clear_message_history w).2 !! MEMORY = Some []
  ∧ stdout (clear_message_history w).2 = stdout w
  ∧ (∀ l, l ≠ MEMORY →
       heap (clear_message_history w).2 !! l = heap w !! l)
  ∧ session_memory session = Some MEMORY
  ∧ (invoke fw session input (clear_message_history w).2).1
    = (invoke fw session input initial_world).1.
Proof.
  intros Hload [m Hm].
  assert (Hcleared :
    chat_memory <$> heap (clear_message_history w).2 !! MEMORY = Some []).
  { cbn [clear_message_history snd heap]. rewrite lookup_alter_eq, Hm. done. }
  assert (Hmem : session_memory session = Some MEMORY).
  { pose proof (load_agent_memory fw tool_names strategy model_name w0) as Hs.
    unfold wp in Hs. by rewrite Hload in Hs. }
  split; [done|]. split; [done|]. split; [done|]. split; [|split; [done|]].
  - intros l Hl. cbn [clear_message_history snd heap].
    by rewrite lookup_alter_ne.
  - apply (invoke_fst_memory fw session input MEMORY); [done|].
    rewrite Hcleared. unfold initial_world. cbn [heap].
    by rewrite lookup_singleton_eq.
Qed.

Lemma clear_keeps_session_witness :
  (clear_message_history talked_world).1 = Ok tt
  ∧ chat_memory <$> heap (clear_message_history talked_world).2 !! MEMORY
    = Some []
  ∧ stdout (clear_message_history talked_world).2 = stdout talked_world
  ∧ (∀ l, l ≠ MEMORY →
       heap (clear_message_history talked_world).2 !! l
       = heap talked_world !! l)
  ∧ session_memory react_session = Some MEMORY
  ∧ (invoke healthy react_session {[ "input" := VStr "again" ]}
       (clear_message_history talked_world).2).1
    = (invoke healthy react_session {[ "input" := VStr "again" ]}
         initial_world).1.
Proof.
  apply (clear_keeps_session healthy [] "zero-shot-react" "gpt-4"
           initial_world react_session healthy_world talked_world).
  - reflexivity.
  - exists {| memory_key := "chat_history"; return_messages := true;
              output_key := "output";
              chat_memory := [HumanMessage "hi"; AIMessage "hi"] |}.
    reflexivity.
Defined.

(** ** Programs that only print *)

Section console.
Context {A B : Type}.

Lemma console_only_ret (a : A) : console_only (mret a).
Proof.
  exists (Ok a), []. intros [out h]. unfold mret, M_ret. cbn.
  by rewrite app_nil_r.
Qed.

Lemma console_only_lift (r : result A) : console_only (lift r).
Proof.
  exists r, []. intros [out h]. unfold lift. cbn. by rewrite app_nil_r.
Qed.

Lemma console_only_bind (m : M A) (k : A → M B) :
  console_only m → (∀ a, console_only (k a)) → console_only (m ≫= k).
Proof.
  intros (r & lines & Hm) Hk. destruct r as [a|e].
  - destruct (Hk a) as (r' & lines' & Hka). exists r', (lines ++ lines').
    intros w. unfold mbind, M_bind. rewrite Hm, Hka. cbn.
    by rewrite app_assoc.
  - exists (Raise e), lines. intros w. unfold mbind, M_bind. by rewrite Hm.
Qed.

Lemma console_only_try_except (body : M A) (catches : exn → bool)
    (handler : exn → M A) :
  console_only body → (∀ e, console_only (handler e)) →
  console_only (try_except body catches handler).
Proof.
  intros (r & lines & Hm) Hh. destruct r as [a|e].
  - exists (Ok a), lines. intros w. unfold try_except. by rewrite Hm.
  - destruct (catches e) eqn:Hc.
    + destruct (Hh e) as (r' & lines' & Hhe). exists r', (lines ++ lines').
      intros w. unfold try_except. rewrite Hm, Hc, Hhe. cbn.
      by rewrite app_assoc.
    + exists (Raise e), lines. intros w. unfold try_except.
      by rewrite Hm, Hc.
Qed.
End console.

Lemma console_only_print line : console_only (print line).
Proof. by exists (Ok tt), [line]. Qed.

Lemma console_only_for_each {A S} (xs : list A) (body : A → S → M S) acc :
  (∀ x s, console_only (body x s)) → console_only (for_each xs body acc).
Proof.
  intros Hbody. revert acc. induction xs as [|x xs IH]; intros acc.
  - apply console_only_ret.
  - cbn [for_each]. apply console_only_bind; [apply Hbody|apply IH].
Qed.

(** Decompose a monadic program into its printing parts. *)
Ltac console :=
  repeat first
    [ apply console_only_ret
    | apply console_only_lift
    | apply console_only_print
    | apply console_only_bind; [|intros ?]
    | apply console_only_try_except; [|intros ?]
    | apply console_only_for_each; intros ? ?
    | match goal with
      | |- console_only (if ?b then _ else _) => destruct b
      | |- console_only (match ?x with _ => _ end) => destruct x
      end ].

Lemma available_tools_console_only fw llm :
  console_only (available_tools fw llm).
Proof.
  unfold available_tools, ddg_tool, self_ask_agent, base_tools,
    add_openweathermap, add_wolfram_alpha, add_google_search.
  console.
Qed.

Lemma resolve_name_console_only reg n acc :
  console_only (resolve_name reg n acc).
Proof. unfold resolve_name. console. Qed.

(** [load_tools] only prints: for given arguments its outcome and the
    lines it prints are the same whatever the world, and the memory
    heap is left as it was. *)
Theorem load_tools_console_only fw tool_names llm :
  console_only (load_tools fw tool_names llm).
Proof.
  unfold load_tools. apply console_only_bind.
  - apply available_tools_console_only.
  - intros reg. apply console_only_for_each. intros n acc.
    apply resolve_name_console_only.
Qed.

Lemma load_agent_prints_only fw tool_names strategy model_name :
  console_only (load_agent fw tool_names strategy model_name).
Proof.
  unfold load_agent. apply console_only_bind; [apply console_only_lift|].
  intros llm. apply console_only_bind.
  - unfold load_tools. apply console_only_bind.
    + apply available_tools_console_only.
    + intros reg. apply console_only_for_each. intros n acc.
      apply resolve_name_console_only.
  - intros ts. console.
Qed.

(** Building an agent never touches the conversation memory: whatever
    the strategy, the model and the tools, [load_agent] leaves the heap
    as it found it and only appends lines to the output, and neither its
    outcome nor those lines depend on the conversation so far. *)
Theorem load_agent_keeps_memory fw tool_names strategy model_name w1 w2 :
  heap (load_agent fw tool_names strategy model_name w1).2 = heap w1
  ∧ stdout w1 `prefix_of`
      stdout (load_agent fw tool_names strategy model_name w1).2
  ∧ (load_agent fw tool_names strategy model_name w1).1
    = (load_agent fw tool_names strategy model_name w2).1.
Proof.
  destruct (load_agent_prints_only fw tool_names strategy model_name)
    as (r & lines & H).
  rewrite !H. cbn. split; [done|]. split; [|done]. by exists lines.
Qed.

(** ** The registry, entry by entry *)

Lemma not_raises_Ok {A} (a : A) : ¬ raises (Ok a).
Proof. intros []. Qed.

Lemma ddg_tool_outcome fw w :
  wp (ddg_tool fw) w (λ r _,
    match r with
    | Ok d => ddg_outcome fw d
    | Raise e => import_ddgs fw = Raise e ∧ is_ImportError e = false
    end).
Proof.
  unfold ddg_tool. wp_run; try done.
  - destruct a. by constructor.
  - by econstructor 2.
  - econstructor 3; [done..|]. by rewrite Heqr0.
Qed.

Lemma self_ask_agent_outcome fw llm d w :
  wp (self_ask_agent fw llm d) w (λ r _,
    match r with
    | Ok ae =>
        ∃ prompt a,
          hub_pull fw "hwchase17/self-ask-with-search" = Ok prompt
          ∧ create_self_ask_with_search_agent fw llm [search_tool d] prompt
            = Ok a
          ∧ ae = {| agent := a;
                    tools := [search_tool d];
                    handle_parsing_errors := true;
                    max_iterations := None;
                    early_stopping_method := None;
                    verbose := None;
                    memory := None |}
    | Raise _ => True
    end).
Proof. unfold self_ask_agent. wp_run; eauto. Qed.

Lemma base_tools_outcome fw llm ae w :
  wp (base_tools fw llm ae) w (λ r _,
    match r with
    | Ok reg =>
        ∃ arxiv wikipedia run,
          ArxivQueryRun fw = Ok arxiv
          ∧ WikipediaQueryRun fw = Ok wikipedia
          ∧ LLMMathChain_from_llm fw llm = Ok run
          ∧ reg = <[ "critical_search" := self_ask_tool fw ae ]>
                  (<[ "llm-math" := calculator_tool run ]>
                  (<[ "python_repl" := python_repl_tool fw ]>
                  (<[ "wikipedia" := wikipedia ]>
                  (<[ "arxiv" := arxiv ]> ∅))))
    | Raise _ => True
    end).
Proof.
  unfold base_tools. wp_run; try done. simplify_eq. eauto 10.
Qed.

Lemma add_openweathermap_outcome fw reg w :
  wp (add_openweathermap fw reg) w (λ r _,
    match r with
    | Ok reg' => adds_openweathermap fw reg reg'
    | Raise _ => False
    end).
Proof.
  unfold add_openweathermap. wp_run.
  - constructor 1; [done| |done]. rewrite Heqr. intros [].
  - constructor 2. right. right. by rewrite Heqr0.
  - constructor 2. right. right. by rewrite Heqr0.
  - constructor 2. right. left. by rewrite Heqr.
  - constructor 2. right. left. by rewrite Heqr.
  - constructor 2. by left.
Qed.

Lemma add_wolfram_alpha_outcome fw reg w :
  wp (add_wolfram_alpha fw reg) w (λ r _,
    match r with
    | Ok reg' => adds_wolfram_alpha fw reg reg'
    | Raise _ => False
    end).
Proof.
  unfold add_wolfram_alpha. wp_run.
  - constructor 1; [done| |done]. rewrite Heqr. intros [].
  - constructor 2. right. right. by rewrite Heqr0.
  - constructor 2. right. right. by rewrite Heqr0.
  - constructor 2. right. left. by rewrite Heqr.
  - constructor 2. right. left. by rewrite Heqr.
  - constructor 2. by left.
Qed.

Lemma add_google_search_outcome fw reg w :
  wp (add_google_search fw reg) w (λ r _,
    match r with
    | Ok reg' => adds_google_search fw reg reg'
    | Raise _ => False
    end).
Proof.
  unfold add_google_search. wp_run.
  - apply andb_true_iff in Heqb as [? ?]. by constructor 1.
  - apply andb_true_iff in Heqb as [? ?]. by econstructor 2.
  - constructor 3. right. right. exists e. split; [done|]. right.
    by rewrite Heqr0.
  - constructor 3. right. right. exists e. split; [done|]. by left.
  - constructor 3. apply andb_false_iff in Heqb as [?|?]; auto.
Qed.

(** The registry [load_tools] returns from is assembled as the source
    lays it out. *)
Lemma available_tools_assembled fw llm w reg w' :
  available_tools fw llm w = (Ok reg, w') → assembled fw llm reg.
Proof.
  intros Hrun.
  assert (wp (available_tools fw llm) w (λ r _,
            match r with Ok reg => assembled fw llm reg | Raise _ => True end))
    as Hwp; [|unfold wp in Hwp; by rewrite Hrun in Hwp].
  unfold available_tools.
  eapply wp_seq; [apply ddg_tool_outcome|]. intros [d|e] w1 Hd; [|done].
  eapply wp_seq; [apply self_ask_agent_outcome|].
  intros [ae|e] w2 Hae; [|done]. destruct Hae as (prompt & a & Hp & Ha & ->).
  eapply wp_seq; [apply base_tools_outcome|].
  intros [reg0|e] w3 Hreg; [|done].
  destruct Hreg as (arxiv & wikipedia & run & Harxiv & Hwiki & Hrun' & ->).
  eapply wp_seq; [apply add_openweathermap_outcome|].
  intros [reg1|e] w4 H1; [|done].
  eapply wp_seq; [apply add_wolfram_alpha_outcome|].
  intros [reg2|e] w5 H2; [|done].
  eapply wp_mono; [apply add_google_search_outcome|].
  intros [reg3|e] w6 H3; [|done].
  by econstructor.
Qed.

Lemma add_ddg_search_other d (reg : gmap string Tool) k :
  k ≠ "ddg-search" → add_ddg_search d reg !! k = reg !! k.
Proof. intros Hk. destruct d; cbn; [by rewrite lookup_insert_ne|done]. Qed.

Lemma adds_openweathermap_other fw reg reg' k :
  adds_openweathermap fw reg reg' → k ≠ "openweathermap" →
  reg' !! k = reg !! k.
Proof. destruct 1; intros Hk; [by rewrite lookup_insert_ne|done]. Qed.

Lemma adds_wolfram_alpha_other fw reg reg' k :
  adds_wolfram_alpha fw reg reg' → k ≠ "wolfram-alpha" →
  reg' !! k = reg !! k.
Proof. destruct 1; intros Hk; [by rewrite lookup_insert_ne|done]. Qed.

Lemma adds_google_search_other fw reg reg' k :
  adds_google_search fw reg reg' → k ≠ "google-search" →
  reg' !! k = reg !! k.
Proof. destruct 1; intros Hk; by rewrite ?lookup_insert_ne. Qed.

(** Rewrite a lookup through the optional registrations down to the
    dictionary literal. *)
Ltac through_registrations H1 H2 H3 :=
  rewrite ?(adds_google_search_other _ _ _ _ H3) by done;
  rewrite ?(adds_wolfram_alpha_other _ _ _ _ H2) by done;
  rewrite ?(adds_openweathermap_other _ _ _ _ H1) by done;
  rewrite ?add_ddg_search_other by done.

(** C4 (as amended). In every registry [load_tools] builds, the
    capabilities the repository guards itself are total and turn a
    failure of the live call into a descriptive text: openweathermap,
    over the weather manager built for OWM_API_KEY; wolfram-alpha, over
    the framework's query tool; and ddg-search when it is the ddgs
    implementation.  Every other entry is the framework's own tool or
    callable, passed on without a handler: python_repl runs the
    framework's shell, llm-math the run of the chain built for the
    model, critical_search is the tool made of the nested executor's
    invoke, and arxiv, wikipedia, google-search and the fallback
    DuckDuckGo tool are the tools the framework constructed. *)
Theorem guarded_capabilities_total fw llm w reg w' :
  available_tools fw llm w = (Ok reg, w') →
  (∀ t, reg !! "openweathermap" = Some t →
     ∃ mgr,
       OWM_weather_manager fw (default "" (environ fw !! "OWM_API_KEY"))
         = Ok mgr
       ∧ t = openweathermap_tool mgr
       ∧ ∀ location,
           (∃ s, Tool_invoke t location = Ok s)
           ∧ (∀ e, mgr location = Raise e →
                Tool_invoke t location
                  = Ok ("Could not retrieve weather data for " +:+ location
                        +:+ ": " +:+ exn_str e)))
  ∧ (∀ t, reg !! "wolfram-alpha" = Some t →
       ∃ base, WolframAlphaQueryRun fw = Ok base ∧ ∀ query,
         (∃ s, Tool_invoke t query = Ok s)
         ∧ (∀ e, func base query = Raise e →
              Tool_invoke t query
                = Ok ("Wolfram Alpha query failed: " +:+ exn_str e
                      +:+ ". Please try a different tool or rephrase your query.")))
  ∧ (∀ t, reg !! "ddg-search" = Some t → import_ddgs fw = Ok tt →
       ∀ query,
         (∃ s, Tool_invoke t query = Ok s)
         ∧ (∀ e, ddgs_text fw query 5 = Raise e →
              Tool_invoke t query = Ok ("Search failed: " +:+ exn_str e)))
  ∧ (∀ t, reg !! "python_repl" = Some t → Tool_invoke t = python_repl_run fw)
  ∧ (∀ t, reg !! "llm-math" = Some t →
       LLMMathChain_from_llm fw llm = Ok (Tool_invoke t))
  ∧ (∀ t, reg !! "critical_search" = Some t →
       ∃ ae, t = self_ask_tool fw ae)
  ∧ (∀ t, reg !! "arxiv" = Some t → ArxivQueryRun fw = Ok t)
  ∧ (∀ t, reg !! "wikipedia" = Some t → WikipediaQueryRun fw = Ok t)
  ∧ (∀ t, reg !! "google-search" = Some t →
       GoogleSearchRun_community fw = Ok t
       ∨ GoogleSearchRun_deprecated fw = Ok t)
  ∧ (∀ t, reg !! "ddg-search" = Some t → raises (import_ddgs fw) →
       DuckDuckGoSearchRun fw = Ok t).
Proof.
  intros Hrun.
  pose proof (available_tools_registered _ _ _ _ _ Hrun) as Hreg.
  apply available_tools_assembled in Hrun.
  destruct Hrun as [d prompt a arxiv wikipedia run reg1 reg2 reg3
                      Hd Hp Ha Harxiv Hwiki Hmath H1 H2 H3].
  repeat apply conj.
  - intros t.
    rewrite (adds_google_search_other _ _ _ _ H3) by done.
    rewrite (adds_wolfram_alpha_other _ _ _ _ H2) by done.
    destruct H1 as [mgr Henv Himport Hmgr|Hskip].
    + rewrite lookup_insert_eq. intros [= <-]. exists mgr.
      split; [done|]. split; [done|]. intros location.
      apply get_current_weather_total.
    + rewrite add_ddg_search_other by done.
      by rewrite !lookup_insert_ne, lookup_empty by done.
  - intros t H. apply Hreg in H. inversion H; subst.
    exists base. split; [done|]. intros query. apply WolframAlphaTool_total.
  - intros t H Himport query. apply Hreg in H. inversion H; subst.
    + apply CustomDuckDuckGoSearch_search_total.
    + congruence.
  - intros t H. apply Hreg in H. by inversion H.
  - intros t H. apply Hreg in H. by inversion H.
  - intros t H. apply Hreg in H. inversion H; subst. by eexists.
  - intros t H. apply Hreg in H. by inversion H.
  - intros t H. apply Hreg in H. by inversion H.
  - intros t H. apply Hreg in H. by inversion H.
  - intros t H Hraise. apply Hreg in H. inversion H; subst; [|done].
    match goal with Hi : import_ddgs fw = Ok tt |- _ => rewrite Hi in Hraise end.
    destruct Hraise.
Qed.

Lemma guarded_capabilities_total_witness :
  ∃ mgr,
    OWM_weather_manager full (default "" (environ full !! "OWM_API_KEY"))
      = Ok mgr
    ∧ openweathermap_tool
        (fun _ => Raise (Exn RuntimeError "Unable to find the resource"))
      = openweathermap_tool mgr
    ∧ ∀ location,
        (∃ s, Tool_invoke
                (openweathermap_tool
                   (fun _ => Raise (Exn RuntimeError
                                      "Unable to find the resource")))
                location = Ok s)
        ∧ (∀ e, mgr location = Raise e →
             Tool_invoke
               (openweathermap_tool
                  (fun _ => Raise (Exn RuntimeError
                                     "Unable to find the resource")))
               location
               = Ok ("Could not retrieve weather data for " +:+ location
                     +:+ ": " +:+ exn_str e)).
Proof.
  apply (proj1 (guarded_capabilities_total full (Some gpt4) initial_world
                  full_registry initial_world eq_refl)).
  reflexivity.
Defined.

(** Whenever the registry builds, five capabilities are in it whatever
    the credentials and optional packages: arxiv and wikipedia as the
    framework built them, the Python shell, the calculator over the
    chain built for the given model, and the self-ask agent. *)
Theorem base_capabilities_registered fw llm w reg w' :
  available_tools fw llm w = (Ok reg, w') →
  ∃ arxiv wikipedia run ae,
    ArxivQueryRun fw = Ok arxiv
    ∧ WikipediaQueryRun fw = Ok wikipedia
    ∧ LLMMathChain_from_llm fw llm = Ok run
    ∧ reg !! "arxiv" = Some arxiv
    ∧ reg !! "wikipedia" = Some wikipedia
    ∧ reg !! "python_repl" = Some (python_repl_tool fw)
    ∧ reg !! "llm-math" = Some (calculator_tool run)
    ∧ reg !! "critical_search" = Some (self_ask_tool fw ae).
Proof.
  intros Hrun. apply available_tools_assembled in Hrun.
  destruct Hrun as [d prompt a arxiv wikipedia run reg1 reg2 reg3
                      Hd Hp Ha Harxiv Hwiki Hmath H1 H2 H3].
  eexists arxiv, wikipedia, run, _.
  split; [done|]. split; [done|]. split; [done|].
  repeat split; through_registrations H1 H2 H3;
    by rewrite ?lookup_insert_ne, ?lookup_insert_eq by done.
Qed.

Lemma base_capabilities_registered_witness :
  ∃ arxiv wikipedia run ae,
    ArxivQueryRun healthy = Ok arxiv
    ∧ WikipediaQueryRun healthy = Ok wikipedia
    ∧ LLMMathChain_from_llm healthy (Some gpt4) = Ok run
    ∧ healthy_registry !! "arxiv" = Some arxiv
    ∧ healthy_registry !! "wikipedia" = Some wikipedia
    ∧ healthy_registry !! "python_repl" = Some (python_repl_tool healthy)
    ∧ healthy_registry !! "llm-math" = Some (calculator_tool run)
    ∧ healthy_registry !! "critical_search" = Some (self_ask_tool healthy ae).
Proof.
  exact (base_capabilities_registered healthy (Some gpt4) initial_world
           healthy_registry healthy_world eq_refl).
Defined.

(** The ddg-search capability is in the registry exactly when the ddgs
    package imports, or its import fails with an ImportError and the
    older search tool constructs; the tool bound is the repository's own
    search in the first case and the framework's in the second. *)
Theorem ddg_search_available fw llm w reg w' :
  available_tools fw llm w = (Ok reg, w') →
  (is_Some (reg !! "ddg-search") ↔
     ¬ raises (import_ddgs fw) ∨ ¬ raises (DuckDuckGoSearchRun fw))
  ∧ (∀ t, reg !! "ddg-search" = Some t →
       (import_ddgs fw = Ok tt ∧ t = ddg_search_tool fw)
       ∨ (∃ e, import_ddgs fw = Raise e ∧ is_ImportError e = true
               ∧ DuckDuckGoSearchRun fw = Ok t)).
Proof.
  intros Hrun. apply available_tools_assembled in Hrun.
  destruct Hrun as [d prompt a arxiv wikipedia run reg1 reg2 reg3
                      Hd Hp Ha Harxiv Hwiki Hmath H1 H2 H3].
  through_registrations H1 H2 H3.
  destruct Hd as [Hi|e t Hi He Hf|e Hi He Hf]; cbn [add_ddg_search].
  - rewrite lookup_insert_eq. split.
    + split; [|by eauto]. intros _. left. rewrite Hi. apply not_raises_Ok.
    + intros t [= <-]. by left.
  - rewrite lookup_insert_eq. split.
    + split; [|by eauto]. intros _. right. rewrite Hf. apply not_raises_Ok.
    + intros t' [= <-]. right. eauto.
  - rewrite !lookup_insert_ne, lookup_empty by done. split; [|done].
    split; [by intros [? ?]|].
    rewrite Hi. intros [Hn|Hn]; by destruct Hn.
Qed.

(** The openweathermap capability is in the registry exactly when
    OWM_API_KEY is set and not empty, pyowm imports, and the weather
    manager constructs for that key; the tool bound queries that
    manager. *)
Theorem openweathermap_available fw llm w reg w' :
  available_tools fw llm w = (Ok reg, w') →
  (is_Some (reg !! "openweathermap") ↔
     env_truthy (environ fw) "OWM_API_KEY" = true
     ∧ ¬ raises (import_pyowm fw)
     ∧ ¬ raises (OWM_weather_manager fw
                   (default "" (environ fw !! "OWM_API_KEY"))))
  ∧ (∀ t, reg !! "openweathermap" = Some t →
       ∃ mgr, OWM_weather_manager fw
                (default "" (environ fw !! "OWM_API_KEY")) = Ok mgr
              ∧ t = openweathermap_tool mgr).
Proof.
  intros Hrun. apply available_tools_assembled in Hrun.
  destruct Hrun as [d prompt a arxiv wikipedia run reg1 reg2 reg3
                      Hd Hp Ha Harxiv Hwiki Hmath H1 H2 H3].
  rewrite (adds_google_search_other _ _ _ _ H3) by done.
  rewrite (adds_wolfram_alpha_other _ _ _ _ H2) by done.
  destruct H1 as [mgr Henv Himport Hmgr|Hskip].
  - rewrite lookup_insert_eq. split.
    + split; [|by eauto]. intros _. split; [done|]. split; [done|].
      rewrite Hmgr. apply not_raises_Ok.
    + intros t [= <-]. eauto.
  - rewrite add_ddg_search_other by done.
    rewrite !lookup_insert_ne, lookup_empty by done. split; [|done].
    split; [by intros [? ?]|]. intros (Henv & Himport & Hmgr).
    destruct Hskip as [Hs|[Hs|Hs]]; [congruence|done|done].
Qed.

Lemma openweathermap_available_witness :
  is_Some (full_registry !! "openweathermap") ↔
    env_truthy (environ full) "OWM_API_KEY" = true
    ∧ ¬ raises (import_pyowm full)
    ∧ ¬ raises (OWM_weather_manager full
                  (default "" (environ full !! "OWM_API_KEY"))).
Proof.
  exact (proj1 (openweathermap_available full (Some gpt4) initial_world
                  full_registry initial_world eq_refl)).
Defined.

(** The wolfram-alpha capability is in the registry exactly when
    WOLFRAM_ALPHA_APPID is set and not empty, the framework's module
    imports and the query tool constructs; the tool bound is that tool
    under the repository's handler. *)
Theorem wolfram_alpha_available fw llm w reg w' :
  available_tools fw llm w = (Ok reg, w') →
  (is_Some (reg !! "wolfram-alpha") ↔
     env_truthy (environ fw) "WOLFRAM_ALPHA_APPID" = true
     ∧ ¬ raises (import_wolfram_alpha fw)
     ∧ ¬ raises (WolframAlphaQueryRun fw))
  ∧ (∀ t, reg !! "wolfram-alpha" = Some t →
       ∃ base, WolframAlphaQueryRun fw = Ok base ∧ t = WolframAlphaTool base).
Proof.
  intros Hrun. apply available_tools_assembled in Hrun.
  destruct Hrun as [d prompt a arxiv wikipedia run reg1 reg2 reg3
                      Hd Hp Ha Harxiv Hwiki Hmath H1 H2 H3].
  rewrite (adds_google_search_other _ _ _ _ H3) by done.
  destruct H2 as [base Henv Himport Hbase|Hskip].
  - rewrite lookup_insert_eq. split.
    + split; [|by eauto]. intros _. split; [done|]. split; [done|].
      rewrite Hbase. apply not_raises_Ok.
    + intros t [= <-]. eauto.
  - rewrite (adds_openweathermap_other _ _ _ _ H1) by done.
    rewrite add_ddg_search_other by done.
    rewrite !lookup_insert_ne, lookup_empty by done. split; [|done].
    split; [by intros [? ?]|]. intros (Henv & Himport & Hbase).
    destruct Hskip as [Hs|[Hs|Hs]]; [congruence|done|done].
Qed.

Lemma wolfram_alpha_available_witness :
  is_Some (full_registry !! "wolfram-alpha") ↔
    env_truthy (environ full) "WOLFRAM_ALPHA_APPID" = true
    ∧ ¬ raises (import_wolfram_alpha full)
    ∧ ¬ raises (WolframAlphaQueryRun full).
Proof.
  exact (proj1 (wolfram_alpha_available full (Some gpt4) initial_world
                  full_registry initial_world eq_refl)).
Defined.

(** The google-search capability needs both GOOGLE_API_KEY and
    GOOGLE_CSE_ID.  With both set it is the tool of the new package when
    that constructs; when the new package fails with an ImportError it
    is the deprecated tool, if that constructs; any other failure of the
    new package leaves the capability out without trying the deprecated
    one. *)
Theorem google_search_available fw llm w reg w' :
  available_tools fw llm w = (Ok reg, w') →
  (∀ t, reg !! "google-search" = Some t ↔
     env_truthy (environ fw) "GOOGLE_API_KEY" = true
     ∧ env_truthy (environ fw) "GOOGLE_CSE_ID" = true
     ∧ (GoogleSearchRun_community fw = Ok t
        ∨ ∃ e, GoogleSearchRun_community fw = Raise e
               ∧ is_ImportError e = true
               ∧ GoogleSearchRun_deprecated fw = Ok t)).
Proof.
  intros Hrun t. apply available_tools_assembled in Hrun.
  destruct Hrun as [d prompt a arxiv wikipedia run reg1 reg2 reg3
                      Hd Hp Ha Harxiv Hwiki Hmath H1 H2 H3].
  destruct H3 as [t' Hk Hc Hnew|e t' Hk Hc Hnew He Hold|Hskip].
  - rewrite lookup_insert_eq. split.
    + intros [= <-]. eauto.
    + intros (_ & _ & [Ht|(e & Ht & _)]); congruence.
  - rewrite lookup_insert_eq. split.
    + intros [= <-]. eauto 10.
    + intros (_ & _ & [Ht|(e' & _ & _ & Ht)]); congruence.
  - rewrite (adds_wolfram_alpha_other _ _ _ _ H2) by done.
    rewrite (adds_openweathermap_other _ _ _ _ H1) by done.
    rewrite add_ddg_search_other by done.
    rewrite !lookup_insert_ne, lookup_empty by done. split; [done|].
    intros (Hk & Hc & Ht).
    destruct Hskip as [Hs|[Hs|(e & Hnew & Hs)]]; [congruence..|].
    destruct Ht as [Ht|(e' & Ht & He' & Hold)]; [congruence|].
    assert (e' = e) as -> by congruence.
    destruct Hs as [Hs|Hs]; [congruence|]. by rewrite Hold in Hs.
Qed.

Lemma google_search_available_witness :
  full_registry !! "google-search" = Some (stub_tool "google_search") ↔
    env_truthy (environ full) "GOOGLE_API_KEY" = true
    ∧ env_truthy (environ full) "GOOGLE_CSE_ID" = true
    ∧ (GoogleSearchRun_community full = Ok (stub_tool "google_search")
       ∨ ∃ e, GoogleSearchRun_community full = Raise e
              ∧ is_ImportError e = true
              ∧ GoogleSearchRun_deprecated full
                = Ok (stub_tool "google_search")).
Proof.
  exact (google_search_available full (Some gpt4) initial_world
           full_registry initial_world eq_refl (stub_tool "google_search")).
Defined.

Lemma ddg_search_available_witness :
  is_Some (healthy_registry !! "ddg-search") ↔
    ¬ raises (import_ddgs healthy) ∨ ¬ raises (DuckDuckGoSearchRun healthy).
Proof.
  exact (proj1 (ddg_search_available healthy (Some gpt4) initial_world
                  healthy_registry healthy_world eq_refl)).
Defined.

(** ** The shipped configuration *)

Lemma set_environment_lookup env k :
  set_environment env !! k =
  if decide (k ∈ ["OPENAI_API_KEY"; "OPENAI_BASE_URL"; "REPLICATE_API_TOKEN";
                  "GOOGLE_API_KEY"; "WOLFRAM_ALPHA_APPID";
                  "LANGSMITH_API_KEY"; "LANGSMITH_ENDPOINT"; "OWM_API_KEY"])
  then Some ""
  else if decide (k = "LANGCHAIN_TRACING_V2") then Some "true"
  else if decide (k = "LANGCHAIN_PROJECT") then Some "My Project"
  else env !! k.
Proof.
  unfold set_environment. rewrite !lookup_insert.
  repeat case_decide; subst; try done;
    repeat match goal with
    | H : _ ∈ _ |- _ => apply list_elem_of_In in H; cbn in H
    | H : ¬ _ ∈ _ |- _ => rewrite list_elem_of_In in H; cbn in H
    end; try (intuition congruence).
Qed.

(** [set_environment] overwrites: whatever the process environment held
    before, the eight credential and endpoint variables are empty
    afterwards, tracing is "true" and the project is "My Project"; every
    other variable keeps its value, and calling it again changes
    nothing. *)
Theorem set_environment_overwrites env :
  (∀ k, k ∈ ["OPENAI_API_KEY"; "OPENAI_BASE_URL"; "REPLICATE_API_TOKEN";
             "GOOGLE_API_KEY"; "WOLFRAM_ALPHA_APPID";
             "LANGSMITH_API_KEY"; "LANGSMITH_ENDPOINT"; "OWM_API_KEY"] →
        set_environment env !! k = Some ""
        ∧ env_truthy (set_environment env) k = false)
  ∧ set_environment env !! "LANGCHAIN_TRACING_V2" = Some "true"
  ∧ set_environment env !! "LANGCHAIN_PROJECT" = Some "My Project"
  ∧ (∀ k, k ∉ ["OPENAI_API_KEY"; "OPENAI_BASE_URL"; "REPLICATE_API_TOKEN";
               "GOOGLE_API_KEY"; "WOLFRAM_ALPHA_APPID";
               "LANGCHAIN_TRACING_V2"; "LANGCHAIN_PROJECT";
               "LANGSMITH_API_KEY"; "LANGSMITH_ENDPOINT"; "OWM_API_KEY"] →
          set_environment env !! k = env !! k)
  ∧ set_environment (set_environment env) = set_environment env.
Proof.
  split; [|split; [|split; [|split]]].
  - intros k Hk. unfold env_truthy. rewrite set_environment_lookup.
    by rewrite decide_True.
  - by rewrite set_environment_lookup.
  - by rewrite set_environment_lookup.
  - intros k Hk. rewrite set_environment_lookup.
    rewrite !not_elem_of_cons in Hk.
    rewrite decide_False, !decide_False; [done|tauto|tauto|].
    rewrite !not_elem_of_cons. tauto.
  - apply map_eq. intros k. rewrite !set_environment_lookup.
    repeat case_decide; done.
Qed.

Lemma set_environment_overwrites_witness :
  set_environment credentials !! "OWM_API_KEY" = Some ""
  ∧ env_truthy (set_environment credentials) "OWM_API_KEY" = false
  ∧ set_environment credentials !! "GOOGLE_CSE_ID" = Some "google-cse".
Proof.
  split; [|split].
  - apply (proj1 (set_environment_overwrites credentials) "OWM_API_KEY").
    rewrite !elem_of_cons. tauto.
  - apply (proj1 (set_environment_overwrites credentials) "OWM_API_KEY").
    rewrite !elem_of_cons. tauto.
  - rewrite (proj1 (proj2 (proj2 (proj2
               (set_environment_overwrites credentials)))) "GOOGLE_CSE_ID");
      [reflexivity|].
    rewrite !not_elem_of_cons. repeat split; try discriminate.
    apply not_elem_of_nil.
Defined.

Lemma add_openweathermap_without_key fw reg w :
  env_truthy (environ fw) "OWM_API_KEY" = false →
  add_openweathermap fw reg w =
  (Ok reg,
   {| stdout := stdout w ++
        ["Info: OWM_API_KEY not found. OpenWeatherMap tool will not be available."];
      heap := heap w |}).
Proof. intros H. unfold add_openweathermap. by rewrite H. Qed.

Lemma add_wolfram_alpha_without_key fw reg w :
  env_truthy (environ fw) "WOLFRAM_ALPHA_APPID" = false →
  add_wolfram_alpha fw reg w =
  (Ok reg,
   {| stdout := stdout w ++
        ["Info: WOLFRAM_ALPHA_APPID not found. Wolfram Alpha tool will not be available."];
      heap := heap w |}).
Proof. intros H. unfold add_wolfram_alpha. by rewrite H. Qed.

Lemma add_google_search_without_key fw reg w :
  env_truthy (environ fw) "GOOGLE_API_KEY" = false →
  add_google_search fw reg w =
  (Ok reg,
   {| stdout := stdout w ++
        ["Info: GOOGLE_API_KEY and/or GOOGLE_CSE_ID not found. Google Search tool will not be available."];
      heap := heap w |}).
Proof. intros H. unfold add_google_search. by rewrite H. Qed.

Lemma available_tools_without_keys fw llm w :
  env_truthy (environ fw) "OWM_API_KEY" = false →
  env_truthy (environ fw) "WOLFRAM_ALPHA_APPID" = false →
  env_truthy (environ fw) "GOOGLE_API_KEY" = false →
  wp (available_tools fw llm) w (λ r w',
    match r with
    | Ok _ => ∃ lines, stdout w' = lines ++ info_lines
    | Raise _ => True
    end).
Proof.
  intros Ho Hw Hg. unfold available_tools.
  eapply wp_seq; [apply wp_any|]. intros [d|e] w1 _; [|done].
  eapply wp_seq; [apply wp_any|]. intros [ae|e] w2 _; [|done].
  eapply wp_seq; [apply wp_any|]. intros [reg|e] w3 _; [|done].
  apply wp_bind. unfold wp at 1.
  rewrite add_openweathermap_without_key by done. cbn [fst snd].
  apply wp_bind. unfold wp at 1.
  rewrite add_wolfram_alpha_without_key by done. cbn [fst snd].
  unfold wp. rewrite add_google_search_without_key by done. cbn [fst snd stdout].
  exists (stdout w3). by rewrite <- !app_assoc.
Qed.

(** With the configuration as shipped the credential-gated capabilities
    are never available: in an environment that [set_environment] has
    gone over, whatever it held before, the registry has no
    openweathermap, wolfram-alpha or google-search entry, and the last
    three lines printed while building it say so. *)
Theorem shipped_configuration_disables_credentialed fw env llm w reg w' :
  environ fw = set_environment env →
  available_tools fw llm w = (Ok reg, w') →
  reg !! "openweathermap" = None
  ∧ reg !! "wolfram-alpha" = None
  ∧ reg !! "google-search" = None
  ∧ ∃ lines, stdout w' = lines ++ info_lines.
Proof.
  intros Henv Hrun.
  assert (Hblank : ∀ k,
    k ∈ ["OWM_API_KEY"; "WOLFRAM_ALPHA_APPID"; "GOOGLE_API_KEY"] →
    env_truthy (environ fw) k = false).
  { intros k Hk. rewrite Henv. unfold env_truthy.
    rewrite set_environment_lookup, decide_True; [done|].
    rewrite !elem_of_cons in Hk. rewrite !elem_of_cons. tauto. }
  assert (Ho : env_truthy (environ fw) "OWM_API_KEY" = false)
    by (apply Hblank; rewrite !elem_of_cons; tauto).
  assert (Hw : env_truthy (environ fw) "WOLFRAM_ALPHA_APPID" = false)
    by (apply Hblank; rewrite !elem_of_cons; tauto).
  assert (Hg : env_truthy (environ fw) "GOOGLE_API_KEY" = false)
    by (apply Hblank; rewrite !elem_of_cons; tauto).
  pose proof (available_tools_without_keys fw llm w Ho Hw Hg) as Hlines.
  unfold wp in Hlines. rewrite Hrun in Hlines.
  apply available_tools_assembled in Hrun.
  destruct Hrun as [d prompt a arxiv wikipedia run reg1 reg2 reg3
                      Hd Hp Ha Harxiv Hwiki Hmath H1 H2 H3].
  assert (reg1 = add_ddg_search d _) as Hreg1
    by (destruct H1; [congruence|done]).
  assert (reg2 = reg1) as -> by (destruct H2; [congruence|done]).
  assert (reg3 = reg1) as -> by (destruct H3; [congruence..|done]).
  rewrite Hreg1, !add_ddg_search_other by done.
  by rewrite !lookup_insert_ne, lookup_empty by done.
Qed.

Lemma shipped_configuration_disables_credentialed_witness :
  healthy_registry !! "openweathermap" = None
  ∧ healthy_registry !! "wolfram-alpha" = None
  ∧ healthy_registry !! "google-search" = None
  ∧ ∃ lines, stdout healthy_world = lines ++ info_lines.
Proof.
  exact (shipped_configuration_disables_credentialed
           (with_environ full (set_environment credentials)) credentials
           (Some gpt4) initial_world healthy_registry healthy_world
           eq_refl eq_refl).
Defined.

(** ** The self-ask agent's search tool *)

(** The self-ask agent behind critical_search always has exactly one
    tool, named "Intermediate Answer", and no memory.  That tool hands
    every query to the tool registered as ddg-search; when there is
    none it answers every query with the text "Search tool not
    available", and critical_search is registered all the same. *)
Theorem critical_search_inner_tool fw llm w reg w' :
  available_tools fw llm w = (Ok reg, w') →
  ∃ ae t,
    reg !! "critical_search" = Some (self_ask_tool fw ae)
    ∧ tools ae = [t]
    ∧ name t = "Intermediate Answer"
    ∧ memory ae = None
    ∧ match reg !! "ddg-search" with
      | Some ddg => ∀ query, Tool_invoke t query = Tool_invoke ddg query
      | None => ∀ query, Tool_invoke t query = Ok "Search tool not available"
      end.
Proof.
  intros Hrun. apply available_tools_assembled in Hrun.
  destruct Hrun as [d prompt a arxiv wikipedia run reg1 reg2 reg3
                      Hd Hp Ha Harxiv Hwiki Hmath H1 H2 H3].
  eexists _, (search_tool d).
  through_registrations H1 H2 H3.
  rewrite lookup_insert_eq. split; [done|]. split; [done|].
  split; [by destruct d|]. split; [done|].
  destruct d as [ddg|]; cbn [add_ddg_search].
  - by rewrite lookup_insert_eq.
  - by rewrite !lookup_insert_ne, lookup_empty by done.
Qed.

Lemma critical_search_inner_tool_witness :
  ∃ ae t,
    healthy_registry !! "critical_search" = Some (self_ask_tool healthy ae)
    ∧ tools ae = [t]
    ∧ name t = "Intermediate Answer"
    ∧ memory ae = None
    ∧ match healthy_registry !! "ddg-search" with
      | Some ddg => ∀ query, Tool_invoke t query = Tool_invoke ddg query
      | None => ∀ query, Tool_invoke t query = Ok "Search tool not available"
      end.
Proof.
  exact (critical_search_inner_tool healthy (Some gpt4) initial_world
           healthy_registry healthy_world eq_refl).
Defined.

(** ** Every requested name is accounted for *)

Lemma omap_filter_length (reg : gmap string Tool) (names : list string) :
  length (omap (reg !!.) names) + length (not_found_warnings reg names)
  = length names.
Proof.
  unfold not_found_warnings. rewrite length_fmap.
  induction names as [|n ns IH]; [done|].
  cbn [omap list_omap]. destruct (reg !! n) as [t|] eqn:Hn.
  - rewrite filter_cons_False by congruence. cbn. lia.
  - rewrite filter_cons_True by done. cbn. lia.
Qed.

(** When [load_tools] returns, each requested name has been either
    bound or warned about, once per occurrence: the number of tools
    returned plus the number of lines printed after the registry was
    built is the number of names requested. *)
Theorem load_tools_accounts_for_every_name fw llm tool_names w tools w' :
  load_tools fw tool_names llm w = (Ok tools, w') →
  ∃ warnings,
    stdout w' = stdout (available_tools fw llm w).2 ++ warnings
    ∧ heap w' = heap w
    ∧ length tools + length warnings = length tool_names.
Proof.
  rewrite load_tools_run.
  destruct (available_tools_console_only fw llm) as (r & lines & Hreg).
  rewrite Hreg. destruct r as [reg|e]; [|done].
  rewrite for_each_resolve. intros [= <- <-].
  exists (not_found_warnings reg tool_names). cbn.
  split; [done|]. split; [done|]. apply omap_filter_length.
Qed.

Lemma load_tools_accounts_for_every_name_witness :
  ∃ warnings,
    stdout {| stdout := info_lines ++
                ["Warning: Tool 'nonexistent-tool' not found in available tools."];
              heap := {[ MEMORY := init_memory ]} |}
      = stdout (available_tools healthy (Some gpt4) initial_world).2 ++ warnings
    ∧ heap {| stdout := info_lines ++
                ["Warning: Tool 'nonexistent-tool' not found in available tools."];
              heap := {[ MEMORY := init_memory ]} |}
      = heap initial_world
    ∧ length [stub_tool "wikipedia"] + length warnings
      = length ["wikipedia"; "nonexistent-tool"].
Proof.
  exact (load_tools_accounts_for_every_name healthy (Some gpt4)
           ["wikipedia"; "nonexistent-tool"] initial_world
           [stub_tool "wikipedia"] _ eq_refl).
Defined.

(** ** The repository's own search *)

Lemma append_nonempty (a b : string) : b ≠ "" → a +:+ b ≠ "".
Proof. intros Hb. destruct a; [done|discriminate]. Qed.

Lemma concat_nonempty sep (x : string) xs :
  x ≠ "" → String.concat sep (x :: xs) ≠ "".
Proof.
  intros Hx. destruct xs as [|y ys]; cbn; [done|].
  destruct x; [done|discriminate].
Qed.

(** The search capability answers with the empty string exactly when
    the live search succeeds with no result: every result contributes a
    non-empty line, and a failure contributes its error text. *)
Theorem search_empty_iff_no_results fw query :
  CustomDuckDuckGoSearch_search fw query = Ok ""
  ↔ ddgs_text fw query 5 = Ok [].
Proof.
  unfold CustomDuckDuckGoSearch_search, join.
  destruct (ddgs_text fw query 5) as [[|r rs]|e].
  - done.
  - split; [|done]. intros [= H]. exfalso. revert H.
    cbn [fmap list_fmap]. apply concat_nonempty.
    apply append_nonempty. discriminate.
  - split; done.
Qed.

(** ** More on the plan-and-execute wrapper *)

Lemma scan_steps_lookup_other steps (result : PyDict) k :
  k ≠ "output" → scan_steps steps result !! k = result !! k.
Proof.
  intros Hk. induction steps as [|step steps IH]; [done|].
  cbn [scan_steps]. destruct step; try done.
  destruct (d !! "response"); [by rewrite lookup_insert_ne|done].
Qed.

Lemma wrapper_final_shape (result : PyDict) :
  (∀ k, is_Some ((<[ "intermediate_steps" :=
                      default (VList []) (result !! "intermediate_steps") ]>
                   (<[ "output" := default (VStr no_answer) (result !! "output") ]>
                      ∅) : PyDict) !! k)
        ↔ k = "output" ∨ k = "intermediate_steps")
  ∧ (<[ "intermediate_steps" :=
          default (VList []) (result !! "intermediate_steps") ]>
       (<[ "output" := default (VStr no_answer) (result !! "output") ]> ∅)
       : PyDict) !! "intermediate_steps"
    = Some (default (VList []) (result !! "intermediate_steps")).
Proof.
  split; [|by rewrite lookup_insert_eq].
  intros k. rewrite !lookup_insert_is_Some, lookup_empty. split.
  - intros [-> |[_ [-> |[_ H]]]]; [by right|by left|by destruct H].
  - intros [-> | ->]; [right; split; [done|by left]|by left].
Qed.

Lemma wrapper_output_shape (raw d : PyDict) :
  wrapper_output raw = Ok d →
  (∀ k, is_Some (d !! k) ↔ k = "output" ∨ k = "intermediate_steps")
  ∧ d !! "intermediate_steps"
    = Some (default (VList []) (raw !! "intermediate_steps")).
Proof.
  unfold wrapper_output.
  destruct (match raw !! "output" with
            | None => true | Some output => negb (truthy output) end);
    [|intros [= <-]; apply wrapper_final_shape].
  destruct (raw !! "intermediate_steps") as [steps|] eqn:Hs.
  - destruct (reversed steps) as [l|e]; [|done]. intros [= <-].
    destruct (wrapper_final_shape (scan_steps l raw)) as [Hkeys Hlookup].
    split; [done|]. rewrite Hlookup.
    rewrite scan_steps_lookup_other by done. by rewrite Hs.
  - intros [= <-]. destruct (wrapper_final_shape raw) as [Hkeys Hlookup].
    split; [done|]. rewrite Hlookup. by rewrite Hs.
Qed.

(** Whatever the chain returns, the wrapper's result has exactly the
    two entries "output" and "intermediate_steps": every other entry of
    the chain's result is dropped, the steps are the chain's own (or the
    empty list when it gave none), and the world is as the chain left
    it. *)
Theorem wrapper_result_shape fw planner executor pe input w d w' :
  invoke fw (PlanAndExecuteWrapper planner executor pe) input w = (Ok d, w') →
  (∀ k, is_Some (d !! k) ↔ k = "output" ∨ k = "intermediate_steps")
  ∧ ∃ raw,
      PlanAndExecute_invoke fw pe
        {[ "input" := default (VStr "") (input !! "input") ]} w = (Ok raw, w')
      ∧ d !! "intermediate_steps"
        = Some (default (VList []) (raw !! "intermediate_steps")).
Proof.
  cbn [invoke]. rewrite PlanAndExecuteWrapper_invoke_run.
  destruct (PlanAndExecute_invoke fw pe _ w) as [[raw|e] w1]; [|done].
  intros [= Hout <-]. apply wrapper_output_shape in Hout as [Hkeys Hsteps].
  split; [done|]. by exists raw.
Qed.

Lemma wrapper_result_shape_witness :
  (∀ k, is_Some ((<[ "intermediate_steps" := VList [] ]>
                    (<[ "output" := VStr "done" ]> ∅) : PyDict) !! k)
        ↔ k = "output" ∨ k = "intermediate_steps")
  ∧ ∃ raw,
      PlanAndExecute_invoke healthy
        {| pe_planner := ChatPlanner gpt4;
           pe_executor := ChatAgentExecutor gpt4 [] true;
           pe_verbose := true;
           pe_memory := Some MEMORY |}
        {[ "input" := default (VStr "")
                        (({[ "input" := VStr "hello" ]} : PyDict) !! "input") ]}
        healthy_world = (Ok raw, healthy_world)
      ∧ (<[ "intermediate_steps" := VList [] ]>
           (<[ "output" := VStr "done" ]> ∅) : PyDict) !! "intermediate_steps"
        = Some (default (VList []) (raw !! "intermediate_steps")).
Proof.
  apply (wrapper_result_shape healthy (ChatPlanner gpt4)
           (ChatAgentExecutor gpt4 [] true)
           {| pe_planner := ChatPlanner gpt4;
              pe_executor := ChatAgentExecutor gpt4 [] true;
              pe_verbose := true;
              pe_memory := Some MEMORY |}
           {[ "input" := VStr "hello" ]} healthy_world
           (<[ "intermediate_steps" := VList [] ]>
              (<[ "output" := VStr "done" ]> ∅))
           healthy_world).
  reflexivity.
Defined.

(** The wrapper reads nothing of its argument but the "input" entry:
    an argument without one is treated as the empty question, and any
    other entry is ignored. *)
Theorem wrapper_reads_input_only fw planner executor pe input w :
  invoke fw (PlanAndExecuteWrapper planner executor pe) input w
  = invoke fw (PlanAndExecuteWrapper planner executor pe)
      {[ "input" := default (VStr "") (input !! "input") ]} w
  ∧ (input !! "input" = None →
     invoke fw (PlanAndExecuteWrapper planner executor pe) input w
     = invoke fw (PlanAndExecuteWrapper planner executor pe)
         {[ "input" := VStr "" ]} w).
Proof.
  cbn [invoke]. rewrite !PlanAndExecuteWrapper_invoke_run.
  split.
  - by rewrite lookup_singleton_eq.
  - intros ->. by rewrite lookup_singleton_eq.
Qed.

Lemma wrapper_reads_input_only_witness :
  invoke healthy plan_session ∅ healthy_world
  = invoke healthy plan_session {[ "input" := VStr "" ]} healthy_world.
Proof.
  apply (proj2 (wrapper_reads_input_only healthy (ChatPlanner gpt4)
                  (ChatAgentExecutor gpt4 [] true)
                  {| pe_planner := ChatPlanner gpt4;
                     pe_executor := ChatAgentExecutor gpt4 [] true;
                     pe_verbose := true;
                     pe_memory := Some MEMORY |} ∅ healthy_world)).
  reflexivity.
Defined.

(** The wrapper has no handler and no effect of its own: the world
    after it is the world after the chain, and an exception of the chain
    leaves it unchanged. *)
Theorem wrapper_is_transparent fw planner executor pe input w :
  (invoke fw (PlanAndExecuteWrapper planner executor pe) input w).2
  = (PlanAndExecute_invoke fw pe
       {[ "input" := default (VStr "") (input !! "input") ]} w).2
  ∧ ∀ e,
      (PlanAndExecute_invoke fw pe
         {[ "input" := default (VStr "") (input !! "input") ]} w).1 = Raise e →
      (invoke fw (PlanAndExecuteWrapper planner executor pe) input w).1
      = Raise e.
Proof.
  cbn [invoke]. rewrite PlanAndExecuteWrapper_invoke_run.
  destruct (PlanAndExecute_invoke fw pe _ w) as [[raw|e] w1]; cbn.
  - split; [done|]. intros e [=].
  - split; [done|]. by intros e' [= <-].
Qed.

(** When the chain gives no usable output and its "intermediate_steps"
    entry is not a sequence (None, a boolean, a number), the wrapper
    raises a TypeError where its fallback text was due.  With a truthy
    output the steps are never looked at and are handed back as they
    are. *)
Theorem wrapper_unusable_steps fw planner executor pe input w raw w' steps :
  PlanAndExecute_invoke fw pe
    {[ "input" := default (VStr "") (input !! "input") ]} w = (Ok raw, w') →
  raw !! "intermediate_steps" = Some steps →
  (steps = VNone ∨ (∃ b, steps = VBool b) ∨ ∃ z, steps = VInt z) →
  ((raw !! "output" = None
    ∨ ∃ o, raw !! "output" = Some o ∧ truthy o = false) →
   ∃ e, invoke fw (PlanAndExecuteWrapper planner executor pe) input w
          = (Raise e, w')
        ∧ exn_cls e = TypeError)
  ∧ (∀ o, raw !! "output" = Some o → truthy o = true →
       ∃ d, invoke fw (PlanAndExecuteWrapper planner executor pe) input w
              = (Ok d, w')
            ∧ d !! "output" = Some o
            ∧ d !! "intermediate_steps" = Some steps).
Proof.
  intros Hcall Hsteps Hkind. cbn [invoke].
  rewrite PlanAndExecuteWrapper_invoke_run, Hcall. unfold wrapper_output.
  split.
  - intros Hout.
    assert (match raw !! "output" with
            | None => true | Some output => negb (truthy output) end = true)
      as ->.
    { destruct Hout as [->|(o & -> & ->)]; done. }
    rewrite Hsteps.
    destruct Hkind as [->|[[b ->]|[z ->]]]; cbn [reversed]; by eexists.
  - intros o Ho Htruthy. rewrite Ho, Htruthy. cbn [negb].
    eexists. split; [done|].
    rewrite lookup_insert_ne by done. rewrite !lookup_insert_eq.
    by rewrite Ho, Hsteps.
Qed.

Lemma wrapper_unusable_steps_witness :
  ∃ e, invoke (chain_returning {[ "intermediate_steps" := VNone ]})
         plan_session {[ "input" := VStr "hello" ]} healthy_world
         = (Raise e, healthy_world)
       ∧ exn_cls e = TypeError.
Proof.
  refine (proj1 (wrapper_unusable_steps
    (chain_returning {[ "intermediate_steps" := VNone ]})
    (ChatPlanner gpt4) (ChatAgentExecutor gpt4 [] true)
    {| pe_planner := ChatPlanner gpt4;
       pe_executor := ChatAgentExecutor gpt4 [] true;
       pe_verbose := true;
       pe_memory := Some MEMORY |}
    {[ "input" := VStr "hello" ]} healthy_world
    {[ "intermediate_steps" := VNone ]} healthy_world VNone _ _ _) _).
  - reflexivity.
  - reflexivity.
  - by left.
  - by left.
Defined.

(** ** The model family *)

(** Whatever name is asked for, the client is built for a model whose
    name starts with "gpt-" or "Qwen/", at temperature 0 and streaming;
    the name actually used is a fixed point: asking for it gives the
    same client. *)
Theorem create_llm_model_family fw model_name :
  create_llm fw model_name
    = ChatOpenAI fw (effective_model model_name) 0 true
  ∧ (String.prefix "gpt-" (effective_model model_name) = true
     ∨ String.prefix "Qwen/" (effective_model model_name) = true)
  ∧ effective_model (effective_model model_name) = effective_model model_name
  ∧ create_llm fw (effective_model model_name) = create_llm fw model_name.
Proof.
  assert (Hfamily :
    String.prefix "gpt-" (effective_model model_name) = true
    ∨ String.prefix "Qwen/" (effective_model model_name) = true).
  { unfold effective_model.
    destruct (String.prefix "gpt-" model_name) eqn:Hg; [by left|].
    destruct (String.prefix "Qwen/" model_name) eqn:Hq; [by right|].
    by left. }
  assert (Hfix :
    effective_model (effective_model model_name) = effective_model model_name).
  { unfold effective_model at 1.
    by destruct Hfamily as [->| ->]; rewrite ?orb_true_r. }
  assert (Hrun : ∀ m, create_llm fw m = ChatOpenAI fw (effective_model m) 0 true).
  { intros m. unfold create_llm, effective_model.
    by destruct (String.prefix "gpt-" m), (String.prefix "Qwen/" m). }
  split; [apply Hrun|]. split; [done|]. split; [done|].
  by rewrite !Hrun, Hfix.
Qed.

(** ** The script *)

Lemma replay_message_run msg ui w :
  replay_message msg ui w = (Ok (ui ++ [replayed msg]), w).
Proof. by destruct msg. Qed.

Lemma for_each_replay messages ui w :
  for_each messages replay_message ui w
  = (Ok (ui ++ (replayed <$> messages)), w).
Proof.
  revert ui. induction messages as [|msg messages IH]; intros ui.
  - cbn. unfold mret, M_ret. by rewrite app_nil_r.
  - rewrite for_each_cons, replay_message_run, IH.
    by rewrite <- app_assoc.
Qed.

Section script_properties.
Context (py_str : PyVal → string).

Lemma answer_prompt_run fw agent_chain prompt ui chat_history w :
  answer_prompt py_str fw agent_chain prompt ui chat_history w =
  match invoke fw agent_chain {[ "input" := VStr prompt ]} w with
  | (Ok response, w1) =>
      (Ok (ui ++ [ChatWrite "user" (VStr prompt)]
              ++ [ChatWrite "assistant"
                    (process_response py_str (VDict response))],
           chat_history ++
             [<[ "content" := process_response py_str (VDict response) ]>
                (<[ "role" := VStr "Assistant" ]> ∅)]),
       {| stdout := stdout w1 ++
            ["Raw response: " +:+ py_str (VDict response);
             "Processed output: "
               +:+ py_str (process_response py_str (VDict response))];
          heap := heap w1 |})
  | (Raise e, w1) =>
      (Ok (ui ++ [ChatWrite "user" (VStr prompt)]
              ++ [ChatError "assistant" ("An error occurred: " +:+ exn_str e);
                  ChatWrite "assistant"
                    (VStr "Please try rephrasing your question, select different tools, or try a different model.")],
           chat_history),
       w1)
  end.
Proof.
  unfold answer_prompt, try_except, mbind, M_bind, any_Exception.
  destruct (invoke fw agent_chain _ w) as [[response|e] w1].
  - unfold print, mret, M_ret. cbn. by rewrite <- !app_assoc.
  - unfold mret, M_ret. by rewrite <- !app_assoc.
Qed.

Lemma answer_prompt_never_raises fw agent_chain prompt ui
    chat_history w :
  ¬ raises (answer_prompt py_str fw agent_chain prompt ui chat_history w).1.
Proof.
  rewrite answer_prompt_run.
  destruct (invoke fw agent_chain _ w) as [[response|e] w1];
    apply not_raises_Ok.
Qed.

(** An exception raised while answering never leaves the block: the
    page then shows the user's message, an error box with the cause and
    a line of guidance, and the session's history is not extended.
    When the invocation returns, the page shows what was extracted from
    the response and the history grows by exactly one entry, with role
    "Assistant" and that content; the user's message is never stored. *)
Theorem answer_prompt_contains_failure fw agent_chain prompt ui chat_history w :
  ¬ raises (answer_prompt py_str fw agent_chain prompt ui chat_history w).1
  ∧ (∀ e w1,
       invoke fw agent_chain {[ "input" := VStr prompt ]} w = (Raise e, w1) →
       answer_prompt py_str fw agent_chain prompt ui chat_history w
       = (Ok (ui ++ [ChatWrite "user" (VStr prompt);
                     ChatError "assistant"
                       ("An error occurred: " +:+ exn_str e);
                     ChatWrite "assistant"
                       (VStr "Please try rephrasing your question, select different tools, or try a different model.")],
              chat_history),
          w1))
  ∧ (∀ response w1,
       invoke fw agent_chain {[ "input" := VStr prompt ]} w
         = (Ok response, w1) →
       ∃ w2,
         answer_prompt py_str fw agent_chain prompt ui chat_history w
         = (Ok (ui ++ [ChatWrite "user" (VStr prompt);
                       ChatWrite "assistant"
                         (process_response py_str (VDict response))],
                chat_history ++
                  [<[ "content" := process_response py_str (VDict response) ]>
                     (<[ "role" := VStr "Assistant" ]> ∅)]),
            w2)
         ∧ heap w2 = heap w1).
Proof.
  split; [apply answer_prompt_never_raises|].
  rewrite answer_prompt_run. split.
  - by intros e w1 ->.
  - intros response w1 ->. by eexists.
Qed.

Lemma app_script_run fw chat_history strategy model_name tool_names clear
    prompt w m :
  heap w !! MEMORY = Some m →
  app_script py_str fw chat_history strategy model_name tool_names clear
    prompt w =
  let w0 := if clear then (clear_message_history w).2 else w in
  let ui := Header "Ask a research question!"
            :: (replayed <$> (if clear then [] else chat_memory m)) in
  match load_agent (with_environ fw (set_environment (environ fw)))
          tool_names strategy model_name w0 with
  | (Ok agent_chain, w1) =>
      match prompt with
      | Some prompt =>
          if negb (String.eqb prompt "") then
            answer_prompt py_str
              (with_environ fw (set_environment (environ fw)))
              agent_chain prompt ui (default [] chat_history) w1
          else (Ok (ui, default [] chat_history), w1)
      | None => (Ok (ui, default [] chat_history), w1)
      end
  | (Raise e, w1) => (Raise e, w1)
  end.
Proof.
  intros Hm. unfold app_script. cbv zeta.
  unfold mbind at 1. unfold M_bind at 1.
  destruct clear.
  - cbn [clear_message_history fst snd].
    unfold mbind at 1. unfold M_bind at 1.
    unfold MEMORY_messages at 1. cbn [heap].
    rewrite lookup_alter_eq, Hm. cbn [fmap option_fmap option_map chat_memory].
    unfold mbind at 1. unfold M_bind at 1. rewrite for_each_replay.
    unfold mbind at 1. unfold M_bind at 1.
    destruct (load_agent _ _ _ _ _) as [[agent_chain|e] w1]; [|done].
    by destruct prompt as [prompt|]; [destruct (negb _)|].
  - unfold mret at 1. unfold M_ret at 1.
    unfold mbind at 1. unfold M_bind at 1.
    unfold MEMORY_messages at 1. rewrite Hm.
    unfold mbind at 1. unfold M_bind at 1. rewrite for_each_replay.
    unfold mbind at 1. unfold M_bind at 1.
    destruct (load_agent _ _ _ _ _) as [[agent_chain|e] w1]; [|done].
    by destruct prompt as [prompt|]; [destruct (negb _)|].
Qed.

(** A run of the script fails exactly when building the agent fails.
    [load_agent] is called outside the handler on every run, so its
    exception ends the run even when there is no prompt to answer; the
    replay of the history and the invocation never do. *)
Theorem app_script_fails_iff_load_agent_fails fw chat_history strategy
    model_name tool_names clear prompt w :
  is_Some (heap w !! MEMORY) →
  raises (app_script py_str fw chat_history strategy model_name tool_names
            clear prompt w).1
  ↔ raises (load_agent (with_environ fw (set_environment (environ fw)))
              tool_names strategy model_name w).1.
Proof.
  intros [m Hm]. rewrite (app_script_run _ _ _ _ _ _ _ _ m Hm). cbv zeta.
  destruct (load_agent_prints_only
              (with_environ fw (set_environment (environ fw)))
              tool_names strategy model_name) as (r & lines & Hload).
  rewrite !Hload. destruct r as [agent_chain|e]; [|done].
  cbn [fst raises]. split; [|done].
  destruct prompt as [prompt|]; [|by intros []].
  destruct (negb _); [|by intros []].
  apply answer_prompt_never_raises.
Qed.

(** What a run puts on the page before anything is answered: the
    header, then the conversation held by the shared memory, one message
    each in order, the user's under "user" and the model's under
    "assistant".  When the clear button was pressed the memory is
    emptied first and none of it is shown.  Without a prompt nothing
    follows and the session's history is returned as it was (empty
    before the first run); with a prompt the user's message comes
    next. *)
Theorem app_script_page fw chat_history strategy model_name tool_names clear
    prompt w m ui chat_history' w' :
  heap w !! MEMORY = Some m →
  app_script py_str fw chat_history strategy model_name tool_names clear
    prompt w = (Ok (ui, chat_history'), w') →
  ∃ rest,
    ui = Header "Ask a research question!"
         :: (replayed <$> (if clear then [] else chat_memory m)) ++ rest
    ∧ match prompt with
      | Some (String c prompt') =>
          ∃ rest', rest = ChatWrite "user" (VStr (String c prompt')) :: rest'
      | _ => rest = [] ∧ chat_history' = default [] chat_history
      end.
Proof.
  intros Hm. rewrite (app_script_run _ _ _ _ _ _ _ _ m Hm). cbv zeta.
  destruct (load_agent _ _ _ _ _) as [[agent_chain|e] w1]; [|done].
  destruct prompt as [[|c prompt']|].
  - cbn [String.eqb negb]. intros [= <- <- <-]. exists [].
    by rewrite app_nil_r.
  - cbn [String.eqb negb]. rewrite answer_prompt_run.
    destruct (invoke _ _ _ w1) as [[response|e] w2];
      intros [= <- <- <-]; eexists; (split; [reflexivity|by eexists]).
  - intros [= <- <- <-]. exists []. by rewrite app_nil_r.
Qed.

(** A run without a prompt (a widget was changed, the page was
    reloaded) rebuilds the agent but leaves the conversation memory
    alone: the heap after the run is the heap before it, or the heap
    after the clear when the button was pressed, also when building the
    agent fails. *)
Theorem app_script_idle_keeps_memory fw chat_history strategy model_name
    tool_names clear w :
  is_Some (heap w !! MEMORY) →
  heap (app_script py_str fw chat_history strategy model_name tool_names
          clear None w).2
  = heap (if clear then (clear_message_history w).2 else w).
Proof.
  intros [m Hm]. rewrite (app_script_run _ _ _ _ _ _ _ _ m Hm). cbv zeta.
  destruct (load_agent_prints_only
              (with_environ fw (set_environment (environ fw)))
              tool_names strategy model_name) as (r & lines & Hload).
  rewrite Hload. by destruct r.
Qed.

(** Under plan-and-solve the page shows the wrapper's "output" entry:
    the wrapper's result never has an "action" entry and always has an
    "output" entry, so the script's own fallback text and its "answer"
    and "action_input" branches are never used for it. *)
Theorem process_response_of_wrapper fw planner executor pe input w d w' :
  invoke fw (PlanAndExecuteWrapper planner executor pe) input w = (Ok d, w') →
  d !! "output" = Some (process_response py_str (VDict d)).
Proof.
  cbn [invoke]. rewrite PlanAndExecuteWrapper_invoke_run.
  destruct (PlanAndExecute_invoke fw pe _ w) as [[raw|e] w1]; [|done].
  intros [= Hout <-]. apply wrapper_output_shape in Hout as [Hkeys _].
  cbn [process_response].
  destruct (d !! "action") as [v|] eqn:Haction.
  - assert (is_Some (d !! "action")) as Hsome by eauto.
    apply Hkeys in Hsome as [?|?]; discriminate.
  - destruct (proj2 (Hkeys "output") (or_introl eq_refl)) as [v Hv].
    by rewrite Hv.
Qed.

End script_properties.

Lemma app_script_fails_iff_load_agent_fails_witness :
  raises (app_script stub_str (without_client healthy) None "plan-and-solve"
            "gpt-4" [] false None initial_world).1
  ↔ raises (load_agent
              (with_environ (without_client healthy)
                 (set_environment (environ (without_client healthy))))
              [] "plan-and-solve" "gpt-4" initial_world).1.
Proof.
  apply (app_script_fails_iff_load_agent_fails stub_str (without_client healthy) None
           "plan-and-solve" "gpt-4" [] false None initial_world).
  by exists init_memory.
Defined.

Lemma app_script_page_witness :
  ∃ rest,
    [Header "Ask a research question!";
     ChatWrite "user" (VStr "hi"); ChatWrite "assistant" (VStr "hi")]
    = Header "Ask a research question!"
      :: (replayed <$> (if false then []
                         else [HumanMessage "hi"; AIMessage "hi"])) ++ rest
    ∧ rest = [] ∧ ([] : list PyDict) = default [] None.
Proof.
  eapply (app_script_page stub_str healthy None "zero-shot-react" "gpt-4" []
            false None talked_world
            {| memory_key := "chat_history"; return_messages := true;
               output_key := "output";
               chat_memory := [HumanMessage "hi"; AIMessage "hi"] |}
            [Header "Ask a research question!";
             ChatWrite "user" (VStr "hi"); ChatWrite "assistant" (VStr "hi")]
            []).
  - reflexivity.
  - reflexivity.
Defined.

Lemma app_script_idle_keeps_memory_witness :
  heap (app_script stub_str healthy None "plan-and-solve" "gpt-4"
          ["wikipedia"] false None talked_world).2
  = heap (if false then (clear_message_history talked_world).2
          else talked_world).
Proof.
  apply (app_script_idle_keeps_memory stub_str healthy None "plan-and-solve" "gpt-4"
           ["wikipedia"] false talked_world).
  exists {| memory_key := "chat_history"; return_messages := true;
            output_key := "output";
            chat_memory := [HumanMessage "hi"; AIMessage "hi"] |}.
  reflexivity.
Defined.

Lemma process_response_of_wrapper_witness :
  (<[ "intermediate_steps" := VList [] ]>
     (<[ "output" := VStr "done" ]> ∅) : PyDict) !! "output"
  = Some (process_response stub_str
            (VDict (<[ "intermediate_steps" := VList [] ]>
                      (<[ "output" := VStr "done" ]> ∅)))).
Proof.
  apply (process_response_of_wrapper stub_str healthy (ChatPlanner gpt4)
           (ChatAgentExecutor gpt4 [] true)
           {| pe_planner := ChatPlanner gpt4;
              pe_executor := ChatAgentExecutor gpt4 [] true;
              pe_verbose := true;
              pe_memory := Some MEMORY |}
           {[ "input" := VStr "hello" ]} healthy_world _ healthy_world).
  reflexivity.
Defined.

Lemma wrapper_is_transparent_witness :
  (invoke (chain_raising (Exn RuntimeError "Request timed out."))
     plan_session {[ "input" := VStr "hello" ]} healthy_world).1
  = Raise (Exn RuntimeError "Request timed out.").
Proof.
  apply (proj2 (wrapper_is_transparent
                  (chain_raising (Exn RuntimeError "Request timed out."))
                  (ChatPlanner gpt4) (ChatAgentExecutor gpt4 [] true)
                  {| pe_planner := ChatPlanner gpt4;
                     pe_executor := ChatAgentExecutor gpt4 [] true;
                     pe_verbose := true;
                     pe_memory := Some MEMORY |}
                  {[ "input" := VStr "hello" ]} healthy_world)).
  reflexivity.
Defined.

Lemma answer_prompt_contains_failure_witness :
  answer_prompt stub_str
    (chain_raising (Exn RuntimeError "Request timed out."))
    plan_session "hello" [Header "Ask a research question!"] [] healthy_world
  = (Ok ([Header "Ask a research question!"] ++
           [ChatWrite "user" (VStr "hello");
            ChatError "assistant" ("An error occurred: " +:+ "Request timed out.");
            ChatWrite "assistant"
              (VStr "Please try rephrasing your question, select different tools, or try a different model.")],
         []),
     healthy_world).
Proof.
  apply (proj1 (proj2 (answer_prompt_contains_failure stub_str
                  (chain_raising (Exn RuntimeError "Request timed out."))
                  plan_session "hello" [Header "Ask a research question!"] []
                  healthy_world))
           (Exn RuntimeError "Request timed out.") healthy_world).
  reflexivity.
Defined.

(** ** What the builder binds *)

(** [load_agent] always hands [load_tools] the model it has just
    created, never a missing one, and binds to the session exactly the
    tools [load_tools] resolved, together with the shared memory.  Under
    plan-and-solve the planner and the step executor are built for that
    model and those tools; otherwise the ReAct agent is.  Nothing is
    printed after [load_tools] returns. *)
Theorem load_agent_binds_resolved_tools fw tool_names strategy model_name w
    session w' :
  load_agent fw tool_names strategy model_name w = (Ok session, w') →
  ∃ llm ts,
    create_llm fw model_name = Ok llm
    ∧ load_tools fw tool_names (Some llm) w = (Ok ts, w')
    ∧ match session with
      | PlanAndExecuteWrapper planner executor plan_and_execute =>
          strategy = "plan-and-solve"
          ∧ load_chat_planner fw llm = Ok planner
          ∧ load_agent_executor fw llm ts true = Ok executor
          ∧ plan_and_execute
            = {| pe_planner := planner;
                 pe_executor := executor;
                 pe_verbose := true;
                 pe_memory := Some MEMORY |}
      | ReActAgentExecutor executor =>
          strategy ≠ "plan-and-solve"
          ∧ tools executor = ts
          ∧ memory executor = Some MEMORY
          ∧ ∃ prompt,
              hub_pull fw "hwchase17/react" = Ok prompt
              ∧ create_react_agent fw llm ts prompt = Ok (agent executor)
      end.
Proof.
  unfold load_agent, PlanAndExecuteWrapper_init, mbind, M_bind, lift.
  destruct (create_llm fw model_name) as [llm|e] eqn:Hllm; [|done].
  destruct (load_tools fw tool_names (Some llm) w) as [[ts|e] w1] eqn:Hts;
    [|done].
  destruct (String.eqb strategy "plan-and-solve") eqn:Hs.
  - apply String.eqb_eq in Hs.
    destruct (load_chat_planner fw llm) as [planner|e] eqn:Hp; [|done].
    destruct (load_agent_executor fw llm ts true) as [executor|e] eqn:He;
      [|done].
    intros [= <- <-]. by exists llm, ts.
  - apply String.eqb_neq in Hs.
    destruct (hub_pull fw "hwchase17/react") as [prompt|e] eqn:Hp; [|done].
    destruct (create_react_agent fw llm ts prompt) as [a|e] eqn:Ha; [|done].
    intros [= <- <-]. exists llm, ts. cbn. eauto 10.
Qed.

Lemma load_agent_binds_resolved_tools_witness :
  ∃ llm ts,
    create_llm healthy "gpt-4" = Ok llm
    ∧ load_tools healthy [] (Some llm) initial_world = (Ok ts, healthy_world)
    ∧ "tree-of-thought" ≠ "plan-and-solve"
    ∧ tools {| agent := echo_agent;
               tools := [];
               handle_parsing_errors := true;
               max_iterations := Some 15%nat;
               early_stopping_method := Some "generate";
               verbose := Some true;
               memory := Some MEMORY |} = ts
    ∧ memory {| agent := echo_agent;
                tools := [];
                handle_parsing_errors := true;
                max_iterations := Some 15%nat;
                early_stopping_method := Some "generate";
                verbose := Some true;
                memory := Some MEMORY |} = Some MEMORY
    ∧ ∃ prompt,
        hub_pull healthy "hwchase17/react" = Ok prompt
        ∧ create_react_agent healthy llm ts prompt
          = Ok (agent {| agent := echo_agent;
                         tools := [];
                         handle_parsing_errors := true;
                         max_iterations := Some 15%nat;
                         early_stopping_method := Some "generate";
                         verbose := Some true;
                         memory := Some MEMORY |}).
Proof.
  exact (load_agent_binds_resolved_tools healthy [] "tree-of-thought" "gpt-4"
           initial_world react_session healthy_world eq_refl).
Defined.
